(** * ce-la-react: the prop classifier and the sync effects of [createComponent]

    A shallow embedding of [src/ce-la-react.ts].  The component function that
    [createComponent] hands to [React.forwardRef] is split the way the source
    reads: the classification loop over [Object.entries(props)], the event
    and property layout effects, the server-side template injection and the
    final [React.createElement] call.

    Conventions of the embedding.
    - Prop names, attribute names and event names are ASCII strings.
    - A JavaScript number is represented by the text [String] gives for it;
      arithmetic on numbers is never needed by the source.
    - Functions, symbols and objects are opaque and carry an identity; an
      object also carries what its conversion to a string yields, if it
      yields anything.
    - The plain objects the source uses as dictionaries ([attrs],
      [reactProps], [elementProps], [eventProps]) and the [Map] kept in
      [prevElemPropsRef] are finite maps over their own properties.
    - Reading a key on an object literal, and [in], follow the prototype
      chain up to [Object.prototype].
    - What the source does to the live element is recorded as a trace of
      DOM operations. *)

From Stdlib Require Import Ascii String.
From stdpp Require Import gmap strings list fin_maps.

Open Scope string_scope.
Open Scope list_scope.

(** ** The host language *)

Module JS.

(** Identity of a function or an object. *)
Inductive ref :=
| Builtin (name : string)
| Heap (n : positive).

Inductive value :=
| VUndefined
| VNull
| VBool (b : bool)
| VNumber (text : string)
| VBigInt (text : string)
| VString (s : string)
| VSymbol (id : ref) (description : string)
| VFunction (id : ref) (source : string)
| VObject (id : ref) (text : option string).

#[global] Instance ref_eq_dec : EqDecision ref.
Proof. solve_decision. Defined.

#[global] Instance value_eq_dec : EqDecision value.
Proof. solve_decision. Defined.

Inductive type_tag :=
| TUndefined | TObject | TBoolean | TNumber | TBigInt | TString | TSymbol
| TFunction.

#[global] Instance type_tag_eq_dec : EqDecision type_tag.
Proof. solve_decision. Defined.

(** [typeof v] *)
Definition typeof (v : value) : type_tag :=
  match v with
  | VUndefined => TUndefined
  | VNull => TObject
  | VBool _ => TBoolean
  | VNumber _ => TNumber
  | VBigInt _ => TBigInt
  | VString _ => TString
  | VSymbol _ _ => TSymbol
  | VFunction _ _ => TFunction
  | VObject _ _ => TObject
  end.

(** [v == null], which is also the test of [??] *)
Definition nullish (v : value) : bool :=
  match v with
  | VUndefined | VNull => true
  | _ => false
  end.

(** [a ?? b] *)
Definition coalesce (a b : value) : value := if nullish a then b else a.

(** Truthiness of a string: [s && ...] *)
Definition truthy_string (s : string) : bool :=
  match s with
  | EmptyString => false
  | String _ _ => true
  end.

(** Exceptions.  The only one the source can meet is a [TypeError]. *)
Inductive error := TypeError.

Inductive exc (A : Type) :=
| Return (a : A)
| Throw (e : error).
Arguments Return {A} a.
Arguments Throw {A} e.

#[global] Instance error_eq_dec : EqDecision error.
Proof. solve_decision. Defined.

#[global] Instance exc_eq_dec {A : Type} `{EqDecision A} : EqDecision (exc A).
Proof. solve_decision. Defined.

#[global] Instance exc_fmap : FMap exc := fun A B f m =>
  match m with
  | Return a => Return (f a)
  | Throw e => Throw e
  end.

#[global] Instance exc_ret : MRet exc := fun A a => Return a.
#[global] Instance exc_bind : MBind exc := fun A B f m =>
  match m with
  | Return a => f a
  | Throw e => Throw e
  end.

(** [String(v)].  A primitive always converts; an object converts through
    its own [toString]/[Symbol.toPrimitive], which may throw. *)
Definition to_String (v : value) : exc string :=
  match v with
  | VUndefined => Return "undefined"
  | VNull => Return "null"
  | VBool true => Return "true"
  | VBool false => Return "false"
  | VNumber text => Return text
  | VBigInt text => Return text
  | VString s => Return s
  | VSymbol _ d => Return ("Symbol(" +:+ d +:+ ")")
  | VFunction _ src => Return src
  | VObject _ (Some text) => Return text
  | VObject _ None => Throw TypeError
  end.

(** *** String methods *)

Definition lower_ascii (c : ascii) : ascii :=
  let n := N_of_ascii c in
  if ((65 <=? n) && (n <=? 90))%N then ascii_of_N (n + 32) else c.

(** [s.toLowerCase()] *)
Fixpoint toLowerCase (s : string) : string :=
  match s with
  | EmptyString => EmptyString
  | String c s' => String (lower_ascii c) (toLowerCase s')
  end.

(** [s.startsWith(p)] *)
Definition startsWith (p s : string) : bool := String.prefix p s.

(** [s.endsWith(p)] *)
Definition endsWith (p s : string) : bool :=
  let n := String.length s in
  let m := String.length p in
  if (m <=? n)%nat then String.eqb (substring (n - m) m s) p else false.

(** [s.slice(n)] for a non-negative [n] *)
Definition slice_from (n : nat) (s : string) : string :=
  substring n (String.length s - n) s.

(** [s.slice(0, -n)] for a positive [n] *)
Definition slice_drop_last (n : nat) (s : string) : string :=
  substring 0 (String.length s - n) s.

(** *** Object.prototype

    Reading [o[k]] on an object literal, and [k in o], consult the
    prototype chain; at its end sits [Object.prototype] with these
    members. *)
Definition Object_prototype_members : list string :=
  [ "constructor"; "hasOwnProperty"; "isPrototypeOf";
    "propertyIsEnumerable"; "toLocaleString"; "toString"; "valueOf";
    "__defineGetter__"; "__defineSetter__"; "__lookupGetter__";
    "__lookupSetter__"; "__proto__" ].

Definition Object_prototype_get (k : string) : value :=
  if bool_decide (k = "__proto__") then
    VObject (Builtin "Object.prototype") (Some "[object Object]")
  else if bool_decide (k ∈ Object_prototype_members) then
    VFunction (Builtin ("Object.prototype." +:+ k))
              ("function " +:+ k +:+ "() { [native code] }")
  else VUndefined.

(** [o[k]] for an object literal whose own properties are the strings of
    [o]. *)
Definition literal_get (o : gmap string string) (k : string) : value :=
  match o !! k with
  | Some s => VString s
  | None => Object_prototype_get k
  end.

(** [o[k] = v] on a plain object: every key makes or replaces an own
    property, except [__proto__], whose inherited setter makes none. *)
Definition obj_set {A : Type} (k : string) (v : A) (o : gmap string A)
  : gmap string A :=
  if bool_decide (k = "__proto__") then o else <[k := v]> o.

End JS.

Import JS.

(** ** The module [ce-la-react.ts] *)

Record shadowRootOptions := {
  mode : option string;
  delegatesFocus : option bool
}.

(** The static side of the element class that the source reads.
    [prototype] is the set of names [n] with [n in elementClass.prototype]. *)
Record CustomElementConstructor := {
  getTemplateHTML :
    option (gmap string string → list (string * value) → string);
  shadowRootOptions_of : option shadowRootOptions;
  observedAttributes : option (list string);
  prototype : gset string;
  class_name : string
}.

Record AttributeOptions := {
  toAttributeName : string → string;
  toAttributeValue : value → value
}.

Definition reservedReactProps : gset string :=
  list_to_set
    [ "style"; "children"; "ref"; "key"; "suppressContentEditableWarning";
      "suppressHydrationWarning"; "dangerouslySetInnerHTML" ].

Definition reactPropToAttrNameMap : gmap string string :=
  <["className" := "class"]> (<["htmlFor" := "for"]> ∅).

Definition defaultToAttributeName (propName : string) : string :=
  toLowerCase propName.

Definition defaultToAttributeValue (propValue : value) : value :=
  if bool_decide (typeof propValue = TBoolean) then
    match propValue with
    | VBool true => VString ""
    | _ => VUndefined
    end
  else if bool_decide (typeof propValue = TFunction) then VUndefined
  else if bool_decide (typeof propValue = TObject)
          && negb (bool_decide (propValue = VNull)) then VUndefined
  else propValue.

Definition defaultAttributeOptions : AttributeOptions :=
  {| toAttributeName := defaultToAttributeName;
     toAttributeValue := defaultToAttributeValue |}.

(** The options bag of [createComponent].  [react_version] is
    [Number.parseInt(React.version)], [None] when that is [NaN]. *)
Record Options := {
  react_version : option Z;
  tagName : string;
  elementClass : CustomElementConstructor;
  events : option (gmap string string);
  displayName : option string;
  attributeOptions : AttributeOptions
}.

(** What the module reads of its global environment. *)
Record Env := {
  window_defined : bool;
  HTMLElement_prototype : option (gset string)
}.

Definition IS_REACT_19_OR_NEWER (o : Options) : bool :=
  match react_version o with
  | Some n => (19 <=? n)%Z
  | None => false
  end.

(** [k in (globalThis.HTMLElement?.prototype ?? {})] *)
Definition in_HTMLElement_prototype (env : Env) (k : string) : bool :=
  match HTMLElement_prototype env with
  | Some P => bool_decide (k ∈ P)
  | None => bool_decide (k ∈ Object_prototype_members)
  end.

(** [elementClass.observedAttributes?.some((attr) => attr === attrName)],
    read as a condition. *)
Definition observes (c : CustomElementConstructor) (attrName : string) : bool :=
  match observedAttributes c with
  | Some l => existsb (String.eqb attrName) l
  | None => false
  end.

(** [toAttributeName(reactPropToAttrNameMap[k] ?? k)].  The policy is a
    function on strings.  The lookup in the object literal finds a
    non-string for a name inherited from [Object.prototype]; the default
    policy then fails on [propName.toLowerCase], and a replaced policy is
    given no result either. *)
Definition attr_name (o : Options) (k : string) : exc string :=
  match coalesce (literal_get reactPropToAttrNameMap k) (VString k) with
  | VString propName =>
      Return (toAttributeName (attributeOptions o) propName)
  | _ => Throw TypeError
  end.

(** The test that sends a prop to [elementProps]. *)
Definition is_element_property
    (o : Options) (env : Env) (k attrName : string) : bool :=
  bool_decide (k ∈ prototype (elementClass o))
  && negb (in_HTMLElement_prototype env k)
  && negb (observes (elementClass o) attrName).

(** The four objects the loop fills. *)
Record Classified := {
  eventProps : gmap string value;
  attrs : gmap string string;
  reactProps : gmap string value;
  elementProps : gmap string value
}.

Definition no_props : Classified :=
  {| eventProps := ∅; attrs := ∅; reactProps := ∅; elementProps := ∅ |}.

Definition set_eventProps (k : string) (v : value) (c : Classified) :=
  {| eventProps := obj_set k v (eventProps c); attrs := attrs c;
     reactProps := reactProps c; elementProps := elementProps c |}.

Definition set_attrs (k : string) (s : string) (c : Classified) :=
  {| eventProps := eventProps c; attrs := obj_set k s (attrs c);
     reactProps := reactProps c; elementProps := elementProps c |}.

Definition set_reactProps (k : string) (v : value) (c : Classified) :=
  {| eventProps := eventProps c; attrs := attrs c;
     reactProps := obj_set k v (reactProps c);
     elementProps := elementProps c |}.

Definition set_elementProps (k : string) (v : value) (c : Classified) :=
  {| eventProps := eventProps c; attrs := attrs c;
     reactProps := reactProps c;
     elementProps := obj_set k v (elementProps c) |}.

(** The tail of the loop body, from [const attrValue = toAttributeValue(v)]. *)
Definition classify_attribute
    (o : Options) (attrName : string) (v : value) (c : Classified)
  : exc Classified :=
  let attrValue := toAttributeValue (attributeOptions o) v in
  c1 ← (if truthy_string attrName && negb (nullish attrValue) then
          s ← to_String attrValue;
          let c' := set_attrs attrName s c in
          mret (if negb (IS_REACT_19_OR_NEWER o)
                then set_reactProps attrName attrValue c'
                else c')
        else mret c);
  mret (if truthy_string attrName && IS_REACT_19_OR_NEWER o
        then set_reactProps attrName v c1
        else c1).

(** One turn of [for (const [k, v] of Object.entries(props))]. *)
Definition classify_entry
    (o : Options) (env : Env) (c : Classified) (kv : string * value)
  : exc Classified :=
  let '(k, v) := kv in
  if bool_decide (k ∈ reservedReactProps) then mret (set_reactProps k v c)
  else
    attrName ← attr_name o k;
    if is_element_property o env k attrName then
      mret (set_elementProps k v c)
    else if startsWith "on" k then mret (set_eventProps k v c)
    else classify_attribute o attrName v c.

Fixpoint classify_from
    (o : Options) (env : Env) (c : Classified) (entries : list (string * value))
  : exc Classified :=
  match entries with
  | [] => mret c
  | kv :: rest => c' ← classify_entry o env c kv; classify_from o env c' rest
  end.

(** The whole loop, over [Object.entries(props)]. *)
Definition classify (o : Options) (env : Env) (props : list (string * value))
  : exc Classified :=
  classify_from o env no_props props.

(** ** The layout effects *)

(** The live element is known by its identity; what the effects do to it is
    a trace of these operations. *)
Definition node := positive.

Inductive dom_op :=
| SetField (n : node) (name : string) (v : value)
| RemoveAttribute (n : node) (name : string)
| AddEventListener (n : node) (type : string) (callback : value)
                   (capture : bool)
| RemoveEventListener (n : node) (type : string) (callback : value)
                      (capture : bool).

#[global] Instance dom_op_eq_dec : EqDecision dom_op.
Proof. solve_decision. Defined.

(** [setProperty(node, name, value)] *)
Definition setProperty (env : Env) (n : node) (name : string) (v : value)
  : list dom_op :=
  SetField n name v ::
  (if nullish v && in_HTMLElement_prototype env name
   then [RemoveAttribute n name] else []).

(** One turn of [for (const key in elementProps)] in the property effect:
    the trace so far, [prevElemPropsRef.current] and [newElemProps]. *)
Definition property_turn (env : Env) (n : node)
    (acc : list dom_op * gmap string value * gmap string value)
    (kv : string * value)
  : list dom_op * gmap string value * gmap string value :=
  let '(ops, prev, newElemProps) := acc in
  (ops ++ setProperty env n kv.1 kv.2,
   delete kv.1 prev,
   <[kv.1 := kv.2]> newElemProps).

(** The second loop: [for (const [key, _value] of prevElemPropsRef.current)]. *)
Definition unset_all (env : Env) (n : node) (prev : gmap string value)
  : list dom_op :=
  flat_map (λ kv, setProperty env n kv.1 VUndefined) (map_to_list prev).

(** The body of the property effect.  It yields the trace and the new
    [prevElemPropsRef.current]. *)
Definition property_effect (env : Env) (elementRef_current : option node)
    (elementProps_ : gmap string value) (prev : gmap string value)
  : list dom_op * gmap string value :=
  match elementRef_current with
  | None => ([], prev)
  | Some n =>
      let '(ops, prev', newElemProps) :=
        foldl (property_turn env n) ([], prev, ∅)
              (map_to_list elementProps_) in
      (ops ++ unset_all env n prev', newElemProps)
  end.

(** A listener registration, as [addEventListener] keys it. *)
Record listener := {
  l_target : node;
  l_type : string;
  l_callback : value;
  l_capture : bool
}.

#[global] Instance listener_eq_dec : EqDecision listener.
Proof. solve_decision. Defined.

(** What one turn of [for (const propName in eventProps)] computes at render
    time and closes over: the event name, the callback, the capture flag,
    and the dependency array [[elementRef?.current, callback]]. *)
Record event_effect := {
  ee_eventName : string;
  ee_callback : value;
  ee_useCapture : bool;
  ee_deps : option node * value
}.

(** [(events?.[propName] ?? propName.slice(2).toLowerCase())
       .slice(0, useCapture ? -7 : undefined)] *)
Definition event_name (o : Options) (propName : string) : exc string :=
  let useCapture := endsWith "Capture" propName in
  let configured :=
    match events o with
    | Some m => literal_get m propName
    | None => VUndefined
    end in
  match coalesce configured (VString (toLowerCase (slice_from 2 propName))) with
  | VString s => Return (if useCapture then slice_drop_last 7 s else s)
  | _ => Throw TypeError
  end.

Definition event_effect_of (o : Options) (elementRef_current : option node)
    (kv : string * value) : exc event_effect :=
  eventName ← event_name o kv.1;
  mret {| ee_eventName := eventName;
          ee_callback := kv.2;
          ee_useCapture := endsWith "Capture" kv.1;
          ee_deps := (elementRef_current, kv.2) |}.

Fixpoint event_effects_of (o : Options) (elementRef_current : option node)
    (l : list (string * value)) : exc (list event_effect) :=
  match l with
  | [] => mret []
  | kv :: rest =>
      e ← event_effect_of o elementRef_current kv;
      es ← event_effects_of o elementRef_current rest;
      mret (e :: es)
  end.

(** The body of an event effect, run with the [elementRef.current] of that
    moment.  It yields the trace and the cleanup it returns, if any. *)
Definition event_effect_run (elementRef_current : option node)
    (e : event_effect) : list dom_op * option listener :=
  match elementRef_current with
  | Some eventTarget =>
      if bool_decide (typeof (ee_callback e) = TFunction) then
        ([AddEventListener eventTarget (ee_eventName e) (ee_callback e)
                           (ee_useCapture e)],
         Some {| l_target := eventTarget; l_type := ee_eventName e;
                 l_callback := ee_callback e; l_capture := ee_useCapture e |})
      else ([], None)
  | None => ([], None)
  end.

(** The cleanup: [eventTarget.removeEventListener(eventName, callback,
    useCapture)]. *)
Definition event_cleanup (l : listener) : dom_op :=
  RemoveEventListener (l_target l) (l_type l) (l_callback l) (l_capture l).

(** ** Rendering *)

(** The element that [React.createElement('template', ...)] describes. *)
Record template_element := {
  shadowrootmode : value;
  shadowrootdelegatesfocus : value;
  innerHTML : string
}.

(** A creation argument of the custom element: a prop value as classified,
    the array [[templateShadowRoot, reactProps.children]], or the merged ref
    callback. *)
Inductive arg :=
| Plain (v : value)
| WithTemplate (t : template_element) (rest : value)
| RefCallback.

Record created_element := {
  tag : string;
  args : gmap string arg
}.

(** A render: the element it returns and the layout effects it registered,
    [None] when the [typeof window] guard kept the hooks from being
    called. *)
Record Rendered := {
  created : created_element;
  event_effects : option (list event_effect);
  property_effect_of : option (gmap string value)
}.

Definition value_of_option_string (s : option string) : value :=
  match s with Some s => VString s | None => VUndefined end.

Definition value_of_option_bool (b : option bool) : value :=
  match b with Some b => VBool b | None => VUndefined end.

(** [reactProps.children], read. *)
Definition children_of (reactProps_ : gmap string value) : value :=
  match reactProps_ !! "children" with
  | Some v => v
  | None => VUndefined
  end.

(** The server-only block: the creation arguments after it. *)
Definition inject_template (o : Options) (env : Env)
    (props : list (string * value)) (c : Classified) : gmap string arg :=
  let plain := Plain <$> reactProps c in
  if window_defined env then plain
  else
    match getTemplateHTML (elementClass o),
          shadowRootOptions_of (elementClass o) with
    | Some getTemplateHTML_, Some opts =>
        let templateShadowRoot :=
          {| shadowrootmode := value_of_option_string (mode opts);
             shadowrootdelegatesfocus :=
               value_of_option_bool (delegatesFocus opts);
             innerHTML := getTemplateHTML_ (attrs c) props |} in
        <["children" :=
            WithTemplate templateShadowRoot (children_of (reactProps c))]>
          plain
    | _, _ => plain
    end.

(** The function given to [React.forwardRef], at one render, with the
    [elementRef.current] of that moment. *)
Definition render (o : Options) (env : Env) (elementRef_current : option node)
    (props : list (string * value)) : exc Rendered :=
  c ← classify o env props;
  effects ← (if window_defined env then
               es ← event_effects_of o elementRef_current
                       (map_to_list (eventProps c));
               mret (Some es)
             else mret None);
  mret {| created :=
            {| tag := tagName o;
               args := <["ref" := RefCallback]> (inject_template o env props c) |};
          event_effects := effects;
          property_effect_of :=
            if window_defined env then Some (elementProps c) else None |}.

(** [ReactComponent.displayName = displayName ?? elementClass.name] *)
Definition component_displayName (o : Options) : string :=
  default (class_name (elementClass o)) (displayName o).

(** ** The framework's contract for the hooks the component calls

    [React.useLayoutEffect(effect, deps)] is consumed as a primitive.  What
    the embedding takes from React's documentation: hooks are matched
    between renders by call order; at the first commit every effect runs;
    at a later commit an effect runs again only if some dependency differs
    ([Object.is]) from the one of the previous render, and before any effect
    runs again the cleanups of all of those are called; an effect without a
    dependency array runs at every commit; at unmount every cleanup is
    called.  The ref callback given to [createElement] has stored the node
    in [elementRef.current] before layout effects run. *)

Module React.

(** What is kept for one event hook between commits. *)
Record hook := {
  h_deps : option node * value;
  h_cleanup : option listener
}.

Definition run_hook (elementRef_current : option node) (e : event_effect)
  : list dom_op * hook :=
  let '(ops, cleanup) := event_effect_run elementRef_current e in
  (ops, {| h_deps := ee_deps e; h_cleanup := cleanup |}).

Definition cleanup_ops (h : hook) : list dom_op :=
  match h_cleanup h with
  | Some l => [event_cleanup l]
  | None => []
  end.

(** First commit: every effect runs, in call order. *)
Fixpoint mount_hooks (elementRef_current : option node)
    (es : list event_effect) : list dom_op * list hook :=
  match es with
  | [] => ([], [])
  | e :: es' =>
      let '(ops, h) := run_hook elementRef_current e in
      let '(ops', hs) := mount_hooks elementRef_current es' in
      (ops ++ ops', h :: hs)
  end.

(** A later commit: the cleanups that are called, then the effects that
    run again, and the hooks as kept afterwards.  [None] when the render
    called a different number of hooks than the one before, which React
    rejects. *)
Fixpoint update_hooks (elementRef_current : option node)
    (hs : list hook) (es : list event_effect)
  : option (list dom_op * list dom_op * list hook) :=
  match hs, es with
  | [], [] => Some ([], [], [])
  | h :: hs', e :: es' =>
      '(destroy, create, kept) ← update_hooks elementRef_current hs' es';
      if bool_decide (h_deps h = ee_deps e) then
        Some (destroy, create, h :: kept)
      else
        let '(ops, h') := run_hook elementRef_current e in
        Some (cleanup_ops h ++ destroy, ops ++ create, h' :: kept)
  | _, _ => None
  end.

(** Unmount: every cleanup is called. *)
Definition unmount_hooks (hs : list hook) : list dom_op :=
  flat_map cleanup_ops hs.

End React.

(** The state of one mounted instance of the component: the two refs of the
    source and what React keeps for its event hooks ([None] before the
    first commit). *)
Record Instance := {
  elementRef : option node;
  prevElemProps : gmap string value;
  hooks : option (list React.hook)
}.

Definition new_instance : Instance :=
  {| elementRef := None; prevElemProps := ∅; hooks := None |}.

(** The commit that follows a render, for the node [n] React holds for the
    instance: the trace on the element and the instance afterwards.  A
    render without registered effects (off-browser) has nothing to commit. *)
Definition commit (env : Env) (inst : Instance) (n : node) (r : Rendered)
  : option (list dom_op * Instance) :=
  match event_effects r, property_effect_of r with
  | Some es, Some elementProps_ =>
      '(destroy, create, kept) ←
        match hooks inst with
        | None =>
            let '(ops, hs) := React.mount_hooks (Some n) es in
            Some ([], ops, hs)
        | Some hs => React.update_hooks (Some n) hs es
        end;
      let '(ops, prev) :=
        property_effect env (Some n) elementProps_ (prevElemProps inst) in
      Some (destroy ++ create ++ ops,
            {| elementRef := Some n; prevElemProps := prev;
               hooks := Some kept |})
  | _, _ => Some ([], inst)
  end.

Definition unmount (inst : Instance) : list dom_op * Instance :=
  (match hooks inst with
   | Some hs => React.unmount_hooks hs
   | None => []
   end,
   {| elementRef := None; prevElemProps := prevElemProps inst;
      hooks := None |}).

(** The listeners registered on the page, as [addEventListener] and
    [removeEventListener] maintain them: a registration is keyed by target,
    type, callback and capture flag, and adding one twice keeps one. *)
Definition registry_step (reg : list listener) (op : dom_op) : list listener :=
  match op with
  | AddEventListener n type cb cap =>
      let l := {| l_target := n; l_type := type; l_callback := cb;
                  l_capture := cap |} in
      if bool_decide (l ∈ reg) then reg else reg ++ [l]
  | RemoveEventListener n type cb cap =>
      let l := {| l_target := n; l_type := type; l_callback := cb;
                  l_capture := cap |} in
      filter (λ l', l' ≠ l) reg
  | _ => reg
  end.

Definition registry_after (reg : list listener) (ops : list dom_op)
  : list listener :=
  foldl registry_step reg ops.

(** ** The element of the test suite

    [MyProfile] of [test/ce-la-react.tsx], and a browser whose
    [HTMLElement.prototype] chain answers [in] for the names listed. *)

Definition MyProfile_getTemplateHTML
    (attrs_ : gmap string string) (_ : list (string * value)) : string :=
  "<h1>Hello, " +:+ default "undefined" (attrs_ !! "firstname") +:+ "!</h1>".

(** Names the browser's [HTMLElement.prototype] chain answers [in] for
    (a sample), and the members [MyProfile] declares itself. *)
Definition HTMLElement_members : list string :=
  [ "id"; "title"; "hidden"; "draggable"; "tabIndex"; "className"; "style";
    "children" ] ++ Object_prototype_members.

Definition MyProfile_members : list string :=
  [ "connectedCallback"; "attributeChangedCallback"; "render"; "firstName";
    "age"; "human"; "metadata" ].

(** [class MyProfile extends (globalThis.HTMLElement ?? class {})] *)
Definition MyProfile (in_browser : bool) : CustomElementConstructor :=
  {| getTemplateHTML := Some MyProfile_getTemplateHTML;
     shadowRootOptions_of :=
       Some {| mode := Some "open"; delegatesFocus := None |};
     observedAttributes := Some ["firstname"; "age"; "human"];
     prototype :=
       list_to_set
         (MyProfile_members ++
          (if in_browser then HTMLElement_members
           else Object_prototype_members));
     class_name := "MyProfile" |}.

Definition browser : Env :=
  {| window_defined := true;
     HTMLElement_prototype := Some (list_to_set HTMLElement_members) |}.

Definition server : Env :=
  {| window_defined := false; HTMLElement_prototype := None |}.

Definition MyProfileOptions (major : Z) (in_browser : bool) : Options :=
  {| react_version := Some major;
     tagName := "my-profile";
     elementClass := MyProfile in_browser;
     events := Some (<["onFirstName" := "firstname"]> ∅);
     displayName := None;
     attributeOptions := defaultAttributeOptions |}.

(** A function value, such as the arrow function the test passes as
    [onFirstName]. *)
Definition handler (n : positive) : value :=
  VFunction (Heap n) "() => { firstNameEventCount++; }".

Definition metadata_object : value :=
  VObject (Heap 100) (Some "[object Object]").

Definition style_object : value :=
  VObject (Heap 101) (Some "[object Object]").

Definition children_element : value :=
  VObject (Heap 102) (Some "[object Object]").

(** The props of the test, as [Object.entries] lists them ([ref] is taken
    out by [forwardRef], [children] is the third argument of
    [createElement]). *)
Definition test_props : list (string * value) :=
  [ ("suppressHydrationWarning", VBool true);
    ("metadata", metadata_object);
    ("onFirstName", handler 1);
    ("firstName", VString "Wesley");
    ("age", VNumber "38");
    ("human", VBool true);
    ("className", VString "my-class");
    ("style", style_object);
    ("tabIndex", VNumber "0");
    ("children", children_element) ].

(** What the loop makes of the props of the test with React 18 in the
    browser; [attrs] is what the test expects to find serialized on the
    element. *)
Definition test_classified : Classified :=
  {| eventProps := list_to_map [("onFirstName", handler 1)];
     attrs :=
       list_to_map
         [ ("firstname", "Wesley"); ("age", "38"); ("human", "");
           ("class", "my-class"); ("tabindex", "0") ];
     reactProps :=
       list_to_map
         [ ("suppressHydrationWarning", VBool true);
           ("firstname", VString "Wesley"); ("age", VNumber "38");
           ("human", VString ""); ("class", VString "my-class");
           ("style", style_object); ("tabindex", VNumber "0");
           ("children", children_element) ];
     elementProps := list_to_map [("metadata", metadata_object)] |}.

(** The same props off-browser with React 19, where [MyProfile] extends an
    empty class; React 19 is handed the original values. *)
Definition test_classified_server : Classified :=
  {| eventProps := list_to_map [("onFirstName", handler 1)];
     attrs :=
       list_to_map
         [ ("firstname", "Wesley"); ("age", "38"); ("human", "");
           ("class", "my-class"); ("tabindex", "0") ];
     reactProps :=
       list_to_map
         [ ("suppressHydrationWarning", VBool true);
           ("firstname", VString "Wesley"); ("age", VNumber "38");
           ("human", VBool true); ("class", VString "my-class");
           ("style", style_object); ("tabindex", VNumber "0");
           ("children", children_element) ];
     elementProps := list_to_map [("metadata", metadata_object)] |}.

(** An element class that declares a [htmlFor] accessor of its own, as a
    label-like custom element does, and observes no attribute. *)
Definition LabelLike : CustomElementConstructor :=
  {| getTemplateHTML := None;
     shadowRootOptions_of := None;
     observedAttributes := None;
     prototype :=
       list_to_set (["connectedCallback"; "htmlFor"] ++ HTMLElement_members);
     class_name := "LabelLike" |}.

Definition LabelLikeOptions : Options :=
  {| react_version := Some 19%Z;
     tagName := "label-like";
     elementClass := LabelLike;
     events := None;
     displayName := None;
     attributeOptions := defaultAttributeOptions |}.

(** A naming policy that gives no attribute to the props whose name starts
    with an underscore. *)
Definition private_naming (propName : string) : string :=
  if startsWith "_" propName then "" else toLowerCase propName.

Definition PrivateOptions (major : Z) : Options :=
  {| react_version := Some major;
     tagName := "my-profile";
     elementClass := MyProfile true;
     events := None;
     displayName := None;
     attributeOptions :=
       {| toAttributeName := private_naming;
          toAttributeValue := defaultToAttributeValue |} |}.

(** ** Reading aids for the statements *)

(** The rule of the loop body that takes a prop name, as the source orders
    its four branches. *)
Inductive destination :=
| Reserved
| ElementProperty
| EventHandler
| ElementAttribute.

#[global] Instance destination_eq_dec : EqDecision destination.
Proof. solve_decision. Defined.

Definition destination_of (o : Options) (env : Env) (k : string)
  : exc destination :=
  if bool_decide (k ∈ reservedReactProps) then mret Reserved
  else
    attrName ← attr_name o k;
    if is_element_property o env k attrName then mret ElementProperty
    else if startsWith "on" k then mret EventHandler
    else mret ElementAttribute.

(** The entries of a prop bag that a rule takes. *)
Definition taken_by (o : Options) (env : Env) (d : destination)
    (l : list (string * value)) : list (string * value) :=
  filter (λ kv, destination_of o env kv.1 = Return d) l.

(** [k] is an own key of the object. *)
Definition has_key {A : Type} (m : gmap string A) (k : string) : bool :=
  bool_decide (is_Some (m !! k)).

(** In how many of the four objects a name is a key. *)
Definition holders (c : Classified) (k : string) : nat :=
  Nat.b2n (has_key (reactProps c) k)
  + Nat.b2n (has_key (elementProps c) k)
  + Nat.b2n (has_key (eventProps c) k)
  + Nat.b2n (has_key (attrs c) k).

(** The prop name after the two renames: [reactPropToAttrNameMap[k] ?? k]
    when the map has [k] as a key of its own. *)
Definition renamed (k : string) : string :=
  default k (reactPropToAttrNameMap !! k).

(** The element-property test read on the renamed name, as the
    specification words it. *)
Definition spec_is_element_property
    (o : Options) (env : Env) (k attrName : string) : bool :=
  bool_decide (renamed k ∈ prototype (elementClass o))
  && negb (in_HTMLElement_prototype env (renamed k))
  && negb (observes (elementClass o) attrName).

(** The event name as the specification words it. *)
Definition spec_event_name (o : Options) (propName : string) : string :=
  let resolved :=
    match events o ≫= (λ m, m !! propName) with
    | Some configured => configured
    | None => toLowerCase (slice_from 2 propName)
    end in
  if endsWith "Capture" propName then slice_drop_last 7 resolved
  else resolved.

(** ** Reading aids for the further properties *)

(** The four objects of [c2] written over those of [c1]: what a second
    batch of assignments leaves of a first one. *)
Definition over (c2 c1 : Classified) : Classified :=
  {| eventProps := eventProps c2 ∪ eventProps c1;
     attrs := attrs c2 ∪ attrs c1;
     reactProps := reactProps c2 ∪ reactProps c1;
     elementProps := elementProps c2 ∪ elementProps c1 |}.

(** The same options with another React. *)
Definition with_react_version (v : option Z) (o : Options) : Options :=
  {| react_version := v;
     tagName := tagName o;
     elementClass := elementClass o;
     events := events o;
     displayName := displayName o;
     attributeOptions := attributeOptions o |}.

(** The states a mounted instance goes through on the node [n]: a new
    instance, and then one render and its commit after the other, each
    render reading the [elementRef.current] the commit before it left. *)
Inductive reachable (o : Options) (env : Env) (n : node) : Instance → Prop :=
| reachable_new : reachable o env n new_instance
| reachable_commit (inst : Instance) (props : list (string * value))
    (r : Rendered) (ops : list dom_op) (inst' : Instance) :
    reachable o env n inst →
    NoDup props.*1 →
    render o env (elementRef inst) props = Return r →
    commit env inst n r = Some (ops, inst') →
    reachable o env n inst'.

(** The listener an event effect registers on the node [n]. *)
Definition listener_of (n : node) (e : event_effect) : listener :=
  {| l_target := n; l_type := ee_eventName e; l_callback := ee_callback e;
     l_capture := ee_useCapture e |}.

(** The two calls an event effect and its cleanup make on the node [n]. *)
Definition subscribe (n : node) (e : event_effect) : dom_op :=
  AddEventListener n (ee_eventName e) (ee_callback e) (ee_useCapture e).

Definition unsubscribe (n : node) (e : event_effect) : dom_op :=
  RemoveEventListener n (ee_eventName e) (ee_callback e) (ee_useCapture e).

(** The effects whose callback is a function. *)
Definition with_function_callback (es : list event_effect)
  : list event_effect :=
  filter (λ e, typeof (ee_callback e) = TFunction) es.

(** * Properties *)

(** ** The exception monad *)

Lemma bind_Return {A B : Type} (m : exc A) (f : A → exc B) (b : B) :
  m ≫= f = Return b ↔ ∃ a, m = Return a ∧ f a = Return b.
Proof.
  destruct m as [a|e]; simpl; split.
  - intros H. by exists a.
  - by intros (a' & [= <-] & H).
  - discriminate.
  - by intros (a' & [=] & _).
Qed.

Lemma mret_Return {A : Type} (a b : A) :
  (mret a : exc A) = Return b → a = b.
Proof. by intros [=]. Qed.

(** ** Plain objects *)

Lemma obj_set_lookup {A : Type} (k k' : string) (v : A) (m : gmap string A) :
  obj_set k v m !! k' =
  if bool_decide (k = k' ∧ k ≠ "__proto__") then Some v else m !! k'.
Proof.
  unfold obj_set.
  destruct (decide (k = "__proto__")) as [Hp|Hp], (decide (k = k')) as [He|He].
  - rewrite bool_decide_eq_true_2 by done.
    rewrite bool_decide_eq_false_2; [done | by intros [_ ?]].
  - rewrite bool_decide_eq_true_2 by done.
    rewrite bool_decide_eq_false_2; [done | by intros [? _]].
  - rewrite bool_decide_eq_false_2 by done.
    rewrite bool_decide_eq_true_2 by done.
    subst k'. apply lookup_insert_eq.
  - rewrite bool_decide_eq_false_2 by done.
    rewrite bool_decide_eq_false_2; [| by intros [? _]].
    by apply lookup_insert_ne.
Qed.

Lemma obj_set_lookup_eq {A : Type} (k : string) (v : A) (m : gmap string A) :
  k ≠ "__proto__" → obj_set k v m !! k = Some v.
Proof. intros. rewrite obj_set_lookup. by rewrite bool_decide_eq_true_2. Qed.

Lemma obj_set_lookup_ne {A : Type} (k k' : string) (v : A)
    (m : gmap string A) :
  k ≠ k' → obj_set k v m !! k' = m !! k'.
Proof.
  intros. rewrite obj_set_lookup.
  rewrite bool_decide_eq_false_2; [done | by intros [? _]].
Qed.

Lemma obj_set_is_Some {A : Type} (k k' : string) (v : A) (m : gmap string A) :
  is_Some (m !! k') → is_Some (obj_set k v m !! k').
Proof. rewrite obj_set_lookup. case_bool_decide; eauto. Qed.

(** ** Names inherited from Object.prototype *)

Lemma Object_prototype_get_undefined (k : string) :
  k ∉ Object_prototype_members → Object_prototype_get k = VUndefined.
Proof.
  intros Hk. unfold Object_prototype_get.
  rewrite (bool_decide_eq_false_2 (k ∈ _)) by done.
  case_bool_decide as Hp; [|done].
  subst. exfalso. apply Hk. vm_compute. set_solver.
Qed.

Lemma Object_prototype_get_member (k : string) :
  k ∈ Object_prototype_members → nullish (Object_prototype_get k) = false
  ∧ typeof (Object_prototype_get k) ≠ TString.
Proof.
  intros Hk. unfold Object_prototype_get.
  case_bool_decide; [done|].
  by rewrite bool_decide_eq_true_2.
Qed.

Lemma on_prefix_not_inherited (k : string) :
  startsWith "on" k = true → k ∉ Object_prototype_members.
Proof.
  intros Hon Hk. unfold Object_prototype_members in Hk.
  repeat (apply elem_of_cons in Hk as [->|Hk]; [by vm_compute in Hon|]).
  by apply elem_of_nil in Hk.
Qed.

Lemma reserved_not_inherited (k : string) :
  k ∈ reservedReactProps → k ∉ Object_prototype_members.
Proof.
  intros Hr Hk. unfold Object_prototype_members in Hk.
  repeat (apply elem_of_cons in Hk as [->|Hk];
          [by apply (bool_decide_pack _) in Hr; vm_compute in Hr|]).
  by apply elem_of_nil in Hk.
Qed.

(** ** The classification loop *)

Section Classification.

Context (o : Options) (env : Env).

Lemma attr_name_own_rename (k : string) :
  k ∉ Object_prototype_members →
  attr_name o k = Return (toAttributeName (attributeOptions o) (renamed k)).
Proof.
  intros Hk. unfold attr_name, literal_get, renamed.
  destruct (reactPropToAttrNameMap !! k) as [s|]; [done|].
  by rewrite Object_prototype_get_undefined.
Qed.

Lemma attr_name_inherited (k : string) :
  k ∈ Object_prototype_members → attr_name o k = Throw TypeError.
Proof.
  intros Hk. unfold attr_name, literal_get.
  replace (reactPropToAttrNameMap !! k) with (@None string).
  - destruct (Object_prototype_get_member k Hk) as [Hn Ht].
    unfold coalesce. rewrite Hn.
    by destruct (Object_prototype_get k).
  - unfold Object_prototype_members in Hk.
    repeat (apply elem_of_cons in Hk as [->|Hk]; [by vm_compute|]).
    by apply elem_of_nil in Hk.
Qed.

Lemma attr_name_Return (k a : string) :
  attr_name o k = Return a →
  (k ∉ Object_prototype_members) ∧ (k ≠ "__proto__")
  ∧ a = toAttributeName (attributeOptions o) (renamed k).
Proof.
  intros Ha.
  assert (k ∉ Object_prototype_members) as Hk.
  { intros Hk. by rewrite attr_name_inherited in Ha. }
  split_and!; [done | |].
  - intros ->. apply Hk. vm_compute. set_solver.
  - rewrite attr_name_own_rename in Ha by done. by injection Ha.
Qed.

Lemma reserved_not_proto (k : string) :
  k ∈ reservedReactProps → k ≠ "__proto__".
Proof.
  intros Hr ->. by apply (bool_decide_pack _) in Hr; vm_compute in Hr.
Qed.

(** The attribute branch leaves [elementProps] and [eventProps] alone and
    writes under the attribute name only. *)
Lemma classify_attribute_frame (a : string) (v : value) (c c' : Classified) :
  classify_attribute o a v c = Return c' →
  elementProps c' = elementProps c ∧ eventProps c' = eventProps c
  ∧ (∀ a', a' ≠ a → attrs c' !! a' = attrs c !! a')
  ∧ (∀ a', a' ≠ a → reactProps c' !! a' = reactProps c !! a')
  ∧ (∀ a', is_Some (reactProps c !! a') → is_Some (reactProps c' !! a'))
  ∧ (truthy_string a = false → c' = c).
Proof.
  unfold classify_attribute. intros H.
  apply bind_Return in H as (c1 & H1 & H2).
  apply mret_Return in H2 as <-.
  destruct (truthy_string a) eqn:Ha; simpl in *.
  - assert (elementProps c1 = elementProps c ∧ eventProps c1 = eventProps c
            ∧ (∀ a', a' ≠ a → attrs c1 !! a' = attrs c !! a')
            ∧ (∀ a', a' ≠ a → reactProps c1 !! a' = reactProps c !! a')
            ∧ (∀ a', is_Some (reactProps c !! a') →
                     is_Some (reactProps c1 !! a')))
      as (He & Hv & Hat & Hr & Hs).
    { destruct (nullish (toAttributeValue _ v)); simpl in H1.
      - by apply mret_Return in H1 as <-.
      - apply bind_Return in H1 as (s & _ & H1).
        apply mret_Return in H1 as <-.
        destruct (IS_REACT_19_OR_NEWER o); simpl;
          (split_and!; [done | done | | |]); intros a' Ha'; simpl;
          rewrite ?obj_set_lookup_ne by done; try done;
          by apply obj_set_is_Some. }
    destruct (IS_REACT_19_OR_NEWER o); simpl.
    + split_and!; try done.
      * intros a' Ha'. by rewrite obj_set_lookup_ne, Hr.
      * intros a' Ha'. by apply obj_set_is_Some, Hs.
    + by split_and!.
  - apply mret_Return in H1 as <-. by split_and!.
Qed.

(** One turn of the loop, read through the rule that takes the name. *)
Lemma classify_entry_inv (k : string) (v : value) (c c' : Classified) :
  classify_entry o env c (k, v) = Return c' →
  ∃ d, destination_of o env k = Return d ∧
    match d with
    | Reserved => c' = set_reactProps k v c
    | ElementProperty => c' = set_elementProps k v c
    | EventHandler => c' = set_eventProps k v c
    | ElementAttribute =>
        ∃ a, attr_name o k = Return a ∧ classify_attribute o a v c = Return c'
    end.
Proof.
  unfold classify_entry, destination_of.
  case_bool_decide as Hr.
  - intros H. apply mret_Return in H. by exists Reserved.
  - intros H. apply bind_Return in H as (a & Ha & H). rewrite Ha. simpl.
    destruct (is_element_property o env k a).
    + apply mret_Return in H. by exists ElementProperty.
    + destruct (startsWith "on" k).
      * apply mret_Return in H. by exists EventHandler.
      * exists ElementAttribute. eauto.
Qed.

Lemma destination_of_Return_not_proto (k : string) (d : destination) :
  destination_of o env k = Return d → k ≠ "__proto__".
Proof.
  unfold destination_of. case_bool_decide as Hr.
  - intros _. by apply reserved_not_proto.
  - intros H. apply bind_Return in H as (a & Ha & _).
    by apply attr_name_Return in Ha as (_ & ? & _).
Qed.

Lemma classify_from_cons (c : Classified) (kv : string * value)
    (l : list (string * value)) :
  classify_from o env c (kv :: l) =
  classify_entry o env c kv ≫= λ c1, classify_from o env c1 l.
Proof. done. Qed.

Lemma classify_from_app (c : Classified) (l1 l2 : list (string * value)) :
  classify_from o env c (l1 ++ l2) =
  classify_from o env c l1 ≫= λ c1, classify_from o env c1 l2.
Proof.
  revert c. induction l1 as [|kv l1 IH]; intros c; simpl; [done|].
  destruct (classify_entry o env c kv) as [c1|e]; simpl; [apply IH | done].
Qed.

Lemma taken_by_fst_subseteq (d : destination) (l : list (string * value)) :
  (taken_by o env d l).*1 ⊆ l.*1.
Proof.
  intros k Hk. apply list_elem_of_fmap in Hk as (kv & -> & Hin).
  apply list_elem_of_fmap. exists kv. split; [done|].
  by apply list_elem_of_filter in Hin as [_ ?].
Qed.

Lemma not_taken_lookup (d : destination) (l : list (string * value))
    (k : string) :
  k ∉ l.*1 →
  (list_to_map (taken_by o env d l) : gmap string value) !! k = None.
Proof.
  intros Hk. apply not_elem_of_list_to_map_1.
  intros Hin. by apply Hk, (taken_by_fst_subseteq d).
Qed.

Lemma taken_by_cons (d : destination) (k : string) (v : value)
    (l : list (string * value)) :
  taken_by o env d ((k, v) :: l) =
  if bool_decide (destination_of o env k = Return d)
  then (k, v) :: taken_by o env d l else taken_by o env d l.
Proof.
  unfold taken_by. rewrite filter_cons. simpl.
  case_bool_decide; by case_decide.
Qed.

(** What the loop leaves in [elementProps]: the entries the property rule
    takes, over what was there. *)
Lemma classify_from_elementProps (l : list (string * value))
    (c c' : Classified) :
  NoDup l.*1 →
  classify_from o env c l = Return c' →
  elementProps c' =
  list_to_map (taken_by o env ElementProperty l) ∪ elementProps c.
Proof.
  revert c. induction l as [|[k v] l IH]; intros c Hnd H; simpl in *.
  - apply mret_Return in H as <-. by rewrite (left_id ∅ _).
  - apply NoDup_cons in Hnd as [Hk Hnd].
    apply bind_Return in H as (c1 & H1 & H).
    rewrite (IH c1 Hnd H). clear IH H.
    apply classify_entry_inv in H1 as (d & Hd & H1).
    rewrite taken_by_cons, Hd.
    pose proof (destination_of_Return_not_proto _ _ Hd) as Hp.
    destruct d; simpl.
    + by subst c1.
    + subst c1. simpl.
      unfold obj_set. rewrite bool_decide_eq_false_2 by done.
      rewrite <- insert_union_l, <- insert_union_r; [done|].
      by apply not_taken_lookup.
    + by subst c1.
    + destruct H1 as (a & _ & H1).
      by apply classify_attribute_frame in H1 as (-> & _).
Qed.

(** The same for [eventProps] and the event rule. *)
Lemma classify_from_eventProps (l : list (string * value))
    (c c' : Classified) :
  NoDup l.*1 →
  classify_from o env c l = Return c' →
  eventProps c' =
  list_to_map (taken_by o env EventHandler l) ∪ eventProps c.
Proof.
  revert c. induction l as [|[k v] l IH]; intros c Hnd H; simpl in *.
  - apply mret_Return in H as <-. by rewrite (left_id ∅ _).
  - apply NoDup_cons in Hnd as [Hk Hnd].
    apply bind_Return in H as (c1 & H1 & H).
    rewrite (IH c1 Hnd H). clear IH H.
    apply classify_entry_inv in H1 as (d & Hd & H1).
    rewrite taken_by_cons, Hd.
    pose proof (destination_of_Return_not_proto _ _ Hd) as Hp.
    destruct d; simpl.
    + by subst c1.
    + by subst c1.
    + subst c1. simpl.
      unfold obj_set. rewrite bool_decide_eq_false_2 by done.
      rewrite <- insert_union_l, <- insert_union_r; [done|].
      by apply not_taken_lookup.
    + destruct H1 as (a & _ & H1).
      by apply classify_attribute_frame in H1 as (_ & -> & _).
Qed.

Lemma classify_entry_reactProps_mono (kv : string * value)
    (c c' : Classified) (k : string) :
  classify_entry o env c kv = Return c' →
  is_Some (reactProps c !! k) → is_Some (reactProps c' !! k).
Proof.
  destruct kv as [k0 v0]. intros H Hk.
  apply classify_entry_inv in H as (d & _ & H).
  destruct d; try (subst c'; simpl; by try apply obj_set_is_Some).
  destruct H as (a & _ & H).
  apply classify_attribute_frame in H as (_ & _ & _ & _ & Hs & _). auto.
Qed.

Lemma classify_from_reactProps_mono (l : list (string * value))
    (c c' : Classified) (k : string) :
  classify_from o env c l = Return c' →
  is_Some (reactProps c !! k) → is_Some (reactProps c' !! k).
Proof.
  revert c. induction l as [|kv l IH]; intros c H Hk; simpl in *.
  - by apply mret_Return in H as <-.
  - apply bind_Return in H as (c1 & H1 & H).
    eauto using classify_entry_reactProps_mono.
Qed.

(** A reserved name of the bag is a key of [reactProps]. *)
Lemma classify_from_reserved (l : list (string * value))
    (c c' : Classified) (k : string) (v : value) :
  classify_from o env c l = Return c' →
  (k, v) ∈ l → k ∈ reservedReactProps →
  is_Some (reactProps c' !! k).
Proof.
  revert c. induction l as [|kv l IH]; intros c H Hin Hr; simpl in *.
  - by apply elem_of_nil in Hin.
  - apply bind_Return in H as (c1 & H1 & H).
    apply elem_of_cons in Hin as [<-|Hin]; [|eauto].
    apply (classify_from_reactProps_mono _ _ _ _ H).
    unfold classify_entry in H1.
    rewrite bool_decide_eq_true_2 in H1 by done.
    apply mret_Return in H1 as <-. simpl.
    rewrite obj_set_lookup_eq; [done | by apply reserved_not_proto].
Qed.

(** A key of [attrs] is the attribute name of an entry that fell through
    to the attribute rule. *)
Lemma classify_from_attrs_origin (l : list (string * value))
    (c c' : Classified) (a : string) :
  classify_from o env c l = Return c' →
  is_Some (attrs c' !! a) →
  is_Some (attrs c !! a)
  ∨ ∃ k v, (k, v) ∈ l
           ∧ destination_of o env k = Return ElementAttribute
           ∧ attr_name o k = Return a.
Proof.
  revert c. induction l as [|[k v] l IH]; intros c H Ha; simpl in *.
  - apply mret_Return in H as <-. by left.
  - apply bind_Return in H as (c1 & H1 & H).
    destruct (IH c1 H Ha) as [Hc1|(k' & v' & Hin & Hd & Hn)].
    + apply classify_entry_inv in H1 as (d & Hd & H1).
      destruct d; try (subst c1; by left).
      destruct H1 as (a0 & Ha0 & H1).
      destruct (decide (a = a0)) as [->|Hne].
      * right. exists k, v. split_and!; [apply elem_of_cons; by left|done..].
      * apply classify_attribute_frame in H1 as (_ & _ & Hat & _).
        left. by rewrite <- Hat.
    + right. exists k', v'. split_and!; [apply elem_of_cons; by right|done..].
Qed.

Lemma taken_by_NoDup (d : destination) (l : list (string * value)) :
  NoDup l.*1 → NoDup (taken_by o env d l).*1.
Proof.
  intros Hnd. eapply sublist_NoDup; [exact Hnd|].
  apply fmap_sublist, sublist_filter.
Qed.

Lemma classify_from_destination (l : list (string * value))
    (c c' : Classified) (k : string) (v : value) :
  classify_from o env c l = Return c' → (k, v) ∈ l →
  ∃ d, destination_of o env k = Return d.
Proof.
  revert c. induction l as [|kv l IH]; intros c H Hin.
  - by apply elem_of_nil in Hin.
  - simpl in H. apply bind_Return in H as (c1 & H1 & H).
    apply elem_of_cons in Hin as [<-|Hin]; [|eauto].
    apply classify_entry_inv in H1 as (d & Hd & _). eauto.
Qed.

Lemma taken_by_lookup (d d' : destination) (l : list (string * value))
    (k : string) (v : value) :
  NoDup l.*1 → (k, v) ∈ l → destination_of o env k = Return d →
  (list_to_map (taken_by o env d' l) : gmap string value) !! k
  = if bool_decide (d = d') then Some v else None.
Proof.
  intros Hnd Hin Hd. case_bool_decide as Hdd.
  - subst d'. apply elem_of_list_to_map_1; [by apply taken_by_NoDup|].
    apply list_elem_of_filter. by split.
  - apply not_elem_of_list_to_map_1.
    intros Hk. apply list_elem_of_fmap in Hk as (kv & Hk & Hkv).
    apply list_elem_of_filter in Hkv as [Hkd _].
    rewrite <- Hk, Hd in Hkd. congruence.
Qed.

(** A key of [reactProps] is a reserved name of the bag or the attribute
    name of an entry that fell through to the attribute rule. *)
Lemma classify_from_reactProps_origin (l : list (string * value))
    (c c' : Classified) (a : string) :
  classify_from o env c l = Return c' →
  is_Some (reactProps c' !! a) →
  is_Some (reactProps c !! a)
  ∨ ∃ k v, (k, v) ∈ l
           ∧ (destination_of o env k = Return Reserved ∧ a = k
              ∨ destination_of o env k = Return ElementAttribute
                ∧ attr_name o k = Return a).
Proof.
  revert c. induction l as [|[k v] l IH]; intros c H Ha; simpl in *.
  - apply mret_Return in H as <-. by left.
  - apply bind_Return in H as (c1 & H1 & H).
    destruct (IH c1 H Ha) as [Hc1|(k' & v' & Hin & Hd)].
    + apply classify_entry_inv in H1 as (d & Hd & H1).
      destruct d; try (subst c1; by left).
      * subst c1. simpl in Hc1.
        destruct (decide (k = a)) as [->|Hne].
        -- right. exists a, v.
           split; [apply elem_of_cons; by left | by left].
        -- left. by rewrite obj_set_lookup_ne in Hc1.
      * destruct H1 as (a0 & Ha0 & H1).
        destruct (decide (a = a0)) as [->|Hne].
        -- right. exists k, v.
           split; [apply elem_of_cons; by left | by right].
        -- apply classify_attribute_frame in H1 as (_ & _ & _ & Hr & _).
           left. by rewrite <- Hr.
    + right. exists k', v'. split; [apply elem_of_cons; by right | done].
Qed.

(** The rule that takes a name of the bag, and where the loop leaves the
    name. *)
Lemma classify_routes (props : list (string * value)) (c : Classified) :
  NoDup props.*1 →
  classify o env props = Return c →
  ∀ k v, (k, v) ∈ props →
    ∃ d, destination_of o env k = Return d
      ∧ elementProps c !! k
        = (if bool_decide (d = ElementProperty) then Some v else None)
      ∧ eventProps c !! k
        = (if bool_decide (d = EventHandler) then Some v else None).
Proof.
  intros Hnd H k v Hin.
  pose proof (classify_from_elementProps _ _ _ Hnd H) as He.
  pose proof (classify_from_eventProps _ _ _ Hnd H) as Hv.
  simpl in He, Hv. rewrite (right_id ∅ _) in He, Hv.
  destruct (classify_from_destination _ _ _ _ _ H Hin) as [d Hd].
  exists d. split_and!; [done| |].
  - rewrite He. by apply taken_by_lookup.
  - rewrite Hv. by apply taken_by_lookup.
Qed.

(** The rule is the first of the four tests that the name passes. *)
Lemma destination_of_Return (k : string) (d : destination) :
  destination_of o env k = Return d →
  (k ∉ reservedReactProps →
   attr_name o k = Return (toAttributeName (attributeOptions o) (renamed k)))
  ∧ d = (if bool_decide (k ∈ reservedReactProps) then Reserved
         else if is_element_property o env k
                   (toAttributeName (attributeOptions o) (renamed k))
              then ElementProperty
              else if startsWith "on" k then EventHandler
                   else ElementAttribute).
Proof.
  unfold destination_of. case_bool_decide as Hr.
  - intros Hd. apply mret_Return in Hd. by split.
  - intros H. apply bind_Return in H as (a & Ha & H).
    pose proof (attr_name_Return _ _ Ha) as (_ & _ & ->).
    split; [done|].
    destruct (is_element_property _ _ _ _); [by apply mret_Return in H|].
    destruct (startsWith "on" k); by apply mret_Return in H.
Qed.

(** C1 (amended).  For a prop bag with distinct keys on which the loop
    returns, every key is taken by exactly one of the four rules, which the
    key alone decides.  A key is in [elementProps] exactly when the
    property rule takes it and in [eventProps] exactly when the event rule
    takes it, each time with its own value, and these two objects hold no
    other key; a reserved key is in [reactProps]; a key that falls through
    to the attribute rule is not stored under its own name: every key of
    [attrs] is the resolved attribute name of such a prop, and every key of
    [reactProps] is a reserved key of the bag or such an attribute name. *)
Theorem classification_by_rule (props : list (string * value))
    (c : Classified) :
  NoDup props.*1 →
  classify o env props = Return c →
  (∀ k v, (k, v) ∈ props →
     ∃ d, destination_of o env k = Return d
       ∧ (d = Reserved → is_Some (reactProps c !! k))
       ∧ elementProps c !! k
         = (if bool_decide (d = ElementProperty) then Some v else None)
       ∧ eventProps c !! k
         = (if bool_decide (d = EventHandler) then Some v else None))
  ∧ (∀ k, is_Some (elementProps c !! k) ∨ is_Some (eventProps c !! k) →
          k ∈ props.*1)
  ∧ (∀ a, is_Some (attrs c !! a) →
          ∃ k v, (k, v) ∈ props
                 ∧ destination_of o env k = Return ElementAttribute
                 ∧ attr_name o k = Return a)
  ∧ (∀ a, is_Some (reactProps c !! a) →
          ∃ k v, (k, v) ∈ props
                 ∧ (destination_of o env k = Return Reserved ∧ a = k
                    ∨ destination_of o env k = Return ElementAttribute
                      ∧ attr_name o k = Return a)).
Proof.
  intros Hnd H. split_and!.
  - intros k v Hin.
    destruct (classify_routes _ _ Hnd H k v Hin) as (d & Hd & He & Hv).
    exists d. split_and!; try done.
    intros ->. apply (classify_from_reserved _ _ _ _ _ H Hin).
    apply destination_of_Return in Hd as [_ Hd].
    destruct (decide (k ∈ reservedReactProps)) as [|Hr]; [done|].
    rewrite bool_decide_eq_false_2 in Hd by done.
    by destruct (is_element_property _ _ _ _), (startsWith "on" k).
  - intros k Hk.
    pose proof (classify_from_elementProps _ _ _ Hnd H) as He.
    pose proof (classify_from_eventProps _ _ _ Hnd H) as Hv.
    simpl in He, Hv. rewrite (right_id ∅ _) in He, Hv.
    rewrite He, Hv in Hk.
    destruct (decide (k ∈ props.*1)) as [|Hn]; [done|].
    rewrite !not_taken_lookup in Hk by done.
    destruct Hk as [[? [=]]|[? [=]]].
  - intros a Ha.
    destruct (classify_from_attrs_origin _ _ _ _ H Ha) as [Hs|Hs]; [|done].
    simpl in Hs. rewrite lookup_empty in Hs. by destruct Hs.
  - intros a Ha.
    destruct (classify_from_reactProps_origin _ _ _ _ H Ha) as [Hs|Hs];
      [|done].
    simpl in Hs. rewrite lookup_empty in Hs. by destruct Hs.
Qed.

(** C2 (amended).  A prop is in [elementProps] if and only if its name is
    not reserved, its name as given (the renames touch the attribute name
    only) is a property on the prototype of the element class and not one
    on the prototype of [HTMLElement], and its resolved attribute name is
    not listed in [observedAttributes].  A prop whose resolved attribute
    name is listed there is never an element property: it goes to the
    attribute rule, or to the event rule when its name starts with "on". *)
Theorem element_property_iff (props : list (string * value))
    (c : Classified) :
  NoDup props.*1 →
  classify o env props = Return c →
  ∀ k v, (k, v) ∈ props →
    let attrName := toAttributeName (attributeOptions o) (renamed k) in
    (elementProps c !! k = Some v ↔
       (k ∉ reservedReactProps)
       ∧ k ∈ prototype (elementClass o)
       ∧ in_HTMLElement_prototype env k = false
       ∧ observes (elementClass o) attrName = false)
    ∧ (k ∉ reservedReactProps →
       observes (elementClass o) attrName = true →
       elementProps c !! k = None
       ∧ destination_of o env k
         = Return (if startsWith "on" k then EventHandler
                   else ElementAttribute)).
Proof.
  intros Hnd H k v Hin attrName.
  destruct (classify_routes _ _ Hnd H k v Hin) as (d & Hd & He & _).
  pose proof (destination_of_Return _ _ Hd) as [_ Hdd].
  fold attrName in Hdd. rewrite He, Hd. clear He Hd.
  unfold is_element_property in Hdd.
  split.
  - split.
    + destruct (decide (d = ElementProperty)) as [Hp|Hp];
        [|by rewrite bool_decide_eq_false_2]. intros _.
      rewrite Hp in Hdd. clear Hp.
      destruct (decide (k ∈ reservedReactProps)) as [Hr|Hr];
        [by rewrite bool_decide_eq_true_2 in Hdd|].
      rewrite (bool_decide_eq_false_2 _ Hr) in Hdd.
      destruct (bool_decide (k ∈ prototype (elementClass o))) eqn:Hproto,
        (in_HTMLElement_prototype env k), (observes (elementClass o) attrName);
        simpl in Hdd; try (by destruct (startsWith "on" k)).
      by apply bool_decide_eq_true_1 in Hproto.
    + intros (Hr & Hproto & Hbase & Hobs).
      rewrite bool_decide_eq_false_2 in Hdd by done.
      rewrite (bool_decide_eq_true_2 _ Hproto), Hbase, Hobs in Hdd.
      simpl in Hdd. subst d. done.
  - intros Hr Hobs.
    rewrite bool_decide_eq_false_2 in Hdd by done.
    rewrite Hobs, !andb_false_r in Hdd. subst d.
    by destruct (startsWith "on" k).
Qed.





(** C10.  A prop that falls through to the attribute rule and whose
    attribute name, as the naming policy gives it, is the empty string is
    dropped: whatever its value and whatever the React version, its turn
    of the loop changes none of the four objects, and the bag classifies
    the same with and without it. *)
Theorem empty_attribute_name_drops (k : string) :
  destination_of o env k = Return ElementAttribute →
  attr_name o k = Return "" →
  ∀ v,
    (∀ c, classify_entry o env c (k, v) = Return c)
    ∧ (∀ c l1 l2,
         classify_from o env c (l1 ++ (k, v) :: l2)
         = classify_from o env c (l1 ++ l2)).
Proof.
  intros Hd Ha v.
  assert (∀ c, classify_entry o env c (k, v) = Return c) as Hstep.
  { intros c. unfold destination_of in Hd. unfold classify_entry.
    case_bool_decide; [done|]. rewrite Ha in *. simpl in *.
    destruct (is_element_property o env k ""); [done|].
    by destruct (startsWith "on" k). }
  split; [done|].
  intros c l1 l2. rewrite !classify_from_app.
  destruct (classify_from o env c l1) as [c1|e]; [|done].
  unfold mbind, exc_bind. by rewrite classify_from_cons, Hstep.
Qed.

(** *** When the loop returns *)

Lemma classify_entry_returns (k : string) (v : value) (c : Classified) :
  k ∉ Object_prototype_members →
  (∃ s, to_String (toAttributeValue (attributeOptions o) v) = Return s) →
  ∃ c', classify_entry o env c (k, v) = Return c'.
Proof.
  intros Hk [s Hs]. unfold classify_entry.
  case_bool_decide; [by eexists|].
  rewrite attr_name_own_rename by done. simpl.
  destruct (is_element_property _ _ _ _); [by eexists|].
  destruct (startsWith "on" k); [by eexists|].
  unfold classify_attribute. rewrite Hs.
  destruct (truthy_string _ && negb _); simpl; by eexists.
Qed.

(** The loop returns when no key is a name inherited from
    [Object.prototype] and the converted values convert to strings. *)
Lemma classify_from_returns (l : list (string * value)) (c : Classified) :
  Forall (λ kv,
            (kv.1 ∉ Object_prototype_members)
            ∧ ∃ s, to_String (toAttributeValue (attributeOptions o) kv.2)
                   = Return s) l →
  ∃ c', classify_from o env c l = Return c'.
Proof.
  revert c. induction l as [|[k v] l IH]; intros c Hall.
  - by eexists.
  - apply Forall_cons in Hall as [[Hk Hs] Hall].
    rewrite classify_from_cons.
    destruct (classify_entry_returns k v c Hk Hs) as [c1 ->]. simpl.
    by apply IH.
Qed.

(** A key inherited from [Object.prototype] makes the loop raise. *)
Lemma classify_from_inherited_raises (l : list (string * value))
    (c : Classified) (k : string) :
  k ∈ l.*1 → k ∈ Object_prototype_members →
  ∃ e, classify_from o env c l = Throw e.
Proof.
  revert c. induction l as [|[k0 v0] l IH]; intros c Hin Hk.
  - by apply elem_of_nil in Hin.
  - rewrite classify_from_cons.
    destruct (classify_entry o env c (k0, v0)) as [c1|e] eqn:H1;
      [|by eexists].
    simpl. rewrite fmap_cons in Hin.
    apply elem_of_cons in Hin as [->|Hin]; [|by apply IH].
    exfalso. apply classify_entry_inv in H1 as (d & Hd & _).
    unfold destination_of in Hd.
    rewrite bool_decide_eq_false_2 in Hd
      by (intros Hr; by apply reserved_not_inherited in Hr).
    simpl in Hd. by rewrite attr_name_inherited in Hd.
Qed.

(** No name in [elementProps] is a property on the prototype of
    [HTMLElement]: for the props the loop hands it, the property effect
    never takes the [removeAttribute] path of [setProperty]. *)
Lemma elementProps_not_on_HTMLElement (props : list (string * value))
    (c : Classified) (k : string) :
  NoDup props.*1 →
  classify o env props = Return c →
  is_Some (elementProps c !! k) →
  in_HTMLElement_prototype env k = false.
Proof.
  intros Hnd H [v Hv].
  pose proof (classify_from_elementProps _ _ _ Hnd H) as He.
  simpl in He. rewrite (right_id ∅ _) in He. rewrite He in Hv.
  apply elem_of_list_to_map_2, list_elem_of_filter in Hv as [Hd _].
  simpl in Hd. apply destination_of_Return in Hd as [_ Hd].
  case_bool_decide; [done|]. unfold is_element_property in Hd.
  destruct (in_HTMLElement_prototype env k); [|done].
  rewrite andb_false_r in Hd. simpl in Hd.
  by destruct (startsWith "on" k).
Qed.

(** Every key of [eventProps] starts with "on". *)
Lemma eventProps_on_prefix (props : list (string * value))
    (c : Classified) (k : string) :
  NoDup props.*1 →
  classify o env props = Return c →
  is_Some (eventProps c !! k) →
  startsWith "on" k = true.
Proof.
  intros Hnd H [v Hv].
  pose proof (classify_from_eventProps _ _ _ Hnd H) as He.
  simpl in He. rewrite (right_id ∅ _) in He. rewrite He in Hv.
  apply elem_of_list_to_map_2, list_elem_of_filter in Hv as [Hd _].
  simpl in Hd. apply destination_of_Return in Hd as [_ Hd].
  case_bool_decide; [done|].
  destruct (is_element_property _ _ _ _); [done|].
  by destruct (startsWith "on" k).
Qed.

End Classification.

(** ** The default conversion *)

(** C6.  The default conversion of a prop value to an attribute value: [true]
    gives the empty string, [false] gives undefined, a function and an
    object other than null give undefined, and every other value, null
    among them, is returned as it is.  Where the converted value is used, a
    null or undefined one adds no attribute, and the empty string that
    [true] converts to is stored as the attribute's value. *)
Theorem default_attribute_value_conversion :
  defaultToAttributeValue (VBool true) = VString ""
  ∧ defaultToAttributeValue (VBool false) = VUndefined
  ∧ (∀ v, typeof v = TFunction → defaultToAttributeValue v = VUndefined)
  ∧ (∀ v, typeof v = TObject → v ≠ VNull →
          defaultToAttributeValue v = VUndefined)
  ∧ (∀ v, typeof v ≠ TBoolean → typeof v ≠ TFunction →
          (typeof v = TObject → v = VNull) →
          defaultToAttributeValue v = v)
  ∧ defaultToAttributeValue VNull = VNull
  ∧ (∀ o a v c,
       nullish (toAttributeValue (attributeOptions o) v) = true →
       ∃ c', classify_attribute o a v c = Return c' ∧ attrs c' = attrs c)
  ∧ (∀ o a c,
       toAttributeValue (attributeOptions o) = defaultToAttributeValue →
       truthy_string a = true → a ≠ "__proto__" →
       ∃ c', classify_attribute o a (VBool true) c = Return c'
             ∧ attrs c' !! a = Some "").
Proof.
  split_and!; try done.
  - by intros [] Hv.
  - by intros [] Hv Hn.
  - intros [] Hb Hf Ho; try done. by specialize (Ho eq_refl).
  - intros o a v c Hn. unfold classify_attribute.
    rewrite Hn, andb_false_r. simpl. eexists. split; [done|].
    by destruct (truthy_string a && IS_REACT_19_OR_NEWER o).
  - intros o a c Hdef Ha Hp. unfold classify_attribute.
    rewrite Hdef, Ha. simpl. eexists. split; [done|].
    destruct (IS_REACT_19_OR_NEWER o); simpl; by apply obj_set_lookup_eq.
Qed.

(** The default conversion never yields an object or a function, so that
    [String] of its result always returns. *)
Lemma default_conversion_converts (v : value) :
  ∃ s, to_String (defaultToAttributeValue v) = Return s.
Proof. destruct v as [| |[]| | | | | |]; by eexists. Qed.

(** X18.  With the default policies the loop raises exactly when a key of
    the bag is a name inherited from [Object.prototype]. *)
Lemma default_classification_raises_iff (o : Options) (env : Env)
    (props : list (string * value)) :
  attributeOptions o = defaultAttributeOptions →
  (∃ e, classify o env props = Throw e)
  ↔ ∃ k, k ∈ props.*1 ∧ k ∈ Object_prototype_members.
Proof.
  intros Hdef. split.
  - intros [e He].
    destruct (decide (Exists (λ k, k ∈ Object_prototype_members) props.*1))
      as [Hex|Hnone].
    + apply Exists_exists in Hex as (k & ? & ?). eauto.
    + exfalso. apply not_Exists_Forall in Hnone; [|apply _].
      destruct (classify_from_returns o env props no_props) as [c Hc].
      * apply Forall_forall. intros [k v] Hin. split.
        -- rewrite Forall_forall in Hnone. apply (Hnone k).
           apply list_elem_of_fmap. by exists (k, v).
        -- rewrite Hdef. apply default_conversion_converts.
      * unfold classify in He. congruence.
  - intros (k & Hin & Hk).
    by apply (classify_from_inherited_raises o env props no_props k).
Qed.

(** ** The property effect *)

Section PropertyEffect.

Context (env : Env) (n : node).

Lemma setProperty_elem (name : string) (v : value) (op : dom_op) :
  op ∈ setProperty env n name v ↔
  op = SetField n name v
  ∨ (op = RemoveAttribute n name ∧ nullish v = true
     ∧ in_HTMLElement_prototype env name = true).
Proof.
  unfold setProperty. rewrite elem_of_cons.
  destruct (nullish v && in_HTMLElement_prototype env name) eqn:Hc.
  - apply andb_true_iff in Hc as [Hn Hb]. rewrite list_elem_of_singleton.
    split.
    + intros [->| ->]; [by left | by right].
    + intros [->|(-> & _)]; [by left | by right].
  - rewrite elem_of_nil. split.
    + intros [->|[]]. by left.
    + intros [->|(-> & Hn & Hb)]; [by left|].
      by rewrite Hn, Hb in Hc.
Qed.

(** The first loop, turn by turn. *)
Lemma property_turns (l : list (string * value)) (ops : list dom_op)
    (prev newElemProps : gmap string value) :
  foldl (property_turn env n) (ops, prev, newElemProps) l =
  (ops ++ flat_map (λ kv, setProperty env n kv.1 kv.2) l,
   foldl (λ p kv, delete kv.1 p) prev l,
   foldl (λ m kv, <[kv.1 := kv.2]> m) newElemProps l).
Proof.
  revert ops prev newElemProps.
  induction l as [|kv l IH]; intros ops prev newElemProps; simpl.
  - by rewrite app_nil_r.
  - rewrite IH. by rewrite <- app_assoc.
Qed.

Lemma deleted_lookup (l : list (string * value)) (prev : gmap string value)
    (k : string) :
  foldl (λ p kv, delete kv.1 p) prev l !! k =
  if bool_decide (k ∈ l.*1) then None else prev !! k.
Proof.
  revert prev. induction l as [|[k0 v0] l IH]; intros prev; [done|].
  rewrite fmap_cons. cbn [foldl fst]. rewrite IH.
  destruct (decide (k = k0)) as [->|Hne].
  - rewrite lookup_delete_eq.
    rewrite (bool_decide_eq_true_2 (k0 ∈ k0 :: _));
      [by case_bool_decide | apply elem_of_cons; by left].
  - rewrite lookup_delete_ne by done.
    rewrite (bool_decide_ext (k ∈ k0 :: l.*1) (k ∈ l.*1)); [done|].
    rewrite elem_of_cons. split; [by intros [?|?] | auto].
Qed.

Lemma inserted_all (l : list (string * value)) (m : gmap string value) :
  NoDup l.*1 →
  foldl (λ m kv, <[kv.1 := kv.2]> m) m l = list_to_map l ∪ m.
Proof.
  revert m. induction l as [|[k v] l IH]; intros m Hnd; simpl.
  - by rewrite (left_id ∅ _).
  - apply NoDup_cons in Hnd as [Hk Hnd]. rewrite IH by done.
    rewrite <- insert_union_l, <- insert_union_r; [done|].
    by apply not_elem_of_list_to_map_1.
Qed.

Lemma flat_map_elem {A B : Type} (f : A → list B) (l : list A) (y : B) :
  y ∈ flat_map f l ↔ ∃ x, x ∈ l ∧ y ∈ f x.
Proof.
  rewrite list_elem_of_In, in_flat_map.
  split; intros (x & Hx & Hy); exists x;
    by rewrite ?list_elem_of_In in *.
Qed.

(** The effect on a live element, in closed form. *)
Lemma property_effect_live (elementProps_ prev : gmap string value) :
  ∃ prev1 : gmap string value,
    (∀ k, prev1 !! k = if elementProps_ !! k is Some _ then None
                       else prev !! k)
    ∧ property_effect env (Some n) elementProps_ prev =
      (flat_map (λ kv, setProperty env n kv.1 kv.2)
                (map_to_list elementProps_)
       ++ unset_all env n prev1,
       elementProps_).
Proof.
  exists (foldl (λ p kv, delete kv.1 p) prev (map_to_list elementProps_)).
  split.
  - intros k. rewrite deleted_lookup.
    destruct (elementProps_ !! k) as [v|] eqn:Hk.
    + rewrite bool_decide_eq_true_2; [done|].
      apply list_elem_of_fmap. exists (k, v).
      split; [done | by apply elem_of_map_to_list].
    + rewrite bool_decide_eq_false_2; [done|].
      intros Hin. apply list_elem_of_fmap in Hin as ([k' v'] & -> & Hin).
      apply elem_of_map_to_list in Hin. simpl in Hk. congruence.
  - unfold property_effect. rewrite property_turns. simpl. f_equal.
    rewrite inserted_all by apply NoDup_fst_map_to_list.
    by rewrite (right_id ∅ _), list_to_map_to_list.
Qed.

(** C4.  The property effect on a live element: every entry of this
    render's [elementProps] is assigned to the element's field of that
    name; every key of the previous set that this render's set lacks is
    assigned undefined; the previous set becomes this render's set; and
    whenever the value assigned is null or undefined and the name is a
    property on the prototype of [HTMLElement], the attribute of that name
    is removed.  The effect does nothing else to the element. *)
Theorem property_sync (elementProps_ prev : gmap string value)
    (ops : list dom_op) (prev' : gmap string value) :
  property_effect env (Some n) elementProps_ prev = (ops, prev') →
  (∀ k v, elementProps_ !! k = Some v → SetField n k v ∈ ops)
  ∧ (∀ k, is_Some (prev !! k) → elementProps_ !! k = None →
          SetField n k VUndefined ∈ ops)
  ∧ prev' = elementProps_
  ∧ (∀ k v, SetField n k v ∈ ops → nullish v = true →
            in_HTMLElement_prototype env k = true →
            RemoveAttribute n k ∈ ops)
  ∧ (∀ op, op ∈ ops →
       (∃ k v, op = SetField n k v
               ∧ (elementProps_ !! k = Some v
                  ∨ (v = VUndefined ∧ is_Some (prev !! k)
                     ∧ elementProps_ !! k = None)))
       ∨ (∃ k v, op = RemoveAttribute n k
                 ∧ SetField n k v ∈ ops ∧ nullish v = true
                 ∧ in_HTMLElement_prototype env k = true)).
Proof.
  destruct (property_effect_live elementProps_ prev) as (prev1 & Hprev1 & Heq).
  rewrite Heq. intros [= <- <-]. clear Heq.
  assert (∀ op,
    op ∈ flat_map (λ kv, setProperty env n kv.1 kv.2)
                  (map_to_list elementProps_) ++ unset_all env n prev1 ↔
    ∃ k v, op ∈ setProperty env n k v
           ∧ (elementProps_ !! k = Some v
              ∨ (v = VUndefined ∧ is_Some (prev !! k)
                 ∧ elementProps_ !! k = None))) as Hops.
  { intros op. unfold unset_all.
    rewrite elem_of_app, !flat_map_elem. split.
    - intros [([k v] & Hin & Hop)|([k v] & Hin & Hop)].
      + apply elem_of_map_to_list in Hin. exists k, v. auto.
      + apply elem_of_map_to_list in Hin. rewrite Hprev1 in Hin.
        exists k, VUndefined. split; [done|]. right.
        destruct (elementProps_ !! k); [done|]. eauto.
    - intros (k & v & Hop & [Hk|(-> & [w Hw] & Hk)]).
      + left. exists (k, v). split; [by apply elem_of_map_to_list | done].
      + right. exists (k, w). split; [|done].
        apply elem_of_map_to_list. by rewrite Hprev1, Hk. }
  split_and!.
  - intros k v Hk. apply Hops. exists k, v.
    split; [apply setProperty_elem; by left | by left].
  - intros k Hp Hk. apply Hops. exists k, VUndefined.
    split; [apply setProperty_elem; by left | by right].
  - done.
  - intros k v Hop Hn Hb. apply Hops in Hop as (k' & v' & Hop & Hwhy).
    apply setProperty_elem in Hop as [[= <- <-]|([=] & _)].
    apply Hops. exists k, v. split; [|done].
    apply setProperty_elem. by right.
  - intros op Hop. pose proof Hop as (k & v & Hin & Hwhy)%Hops.
    apply setProperty_elem in Hin as [->|(-> & Hn & Hb)].
    + left. eauto.
    + right. exists k, v. split_and!; try done.
      apply Hops. exists k, v. split; [|done].
      apply setProperty_elem. by left.
Qed.

End PropertyEffect.

(** ** The event effects *)

Lemma event_name_on_prefix (o : Options) (k : string) :
  startsWith "on" k = true → event_name o k = Return (spec_event_name o k).
Proof.
  intros Hon. unfold event_name, spec_event_name.
  destruct (events o) as [m|]; simpl; [|done].
  unfold literal_get. destruct (m !! k) as [s|]; simpl; [done|].
  by rewrite Object_prototype_get_undefined
    by by apply on_prefix_not_inherited.
Qed.

(** A callback that is not a function subscribes to nothing. *)
Lemma event_effect_run_not_function (elementRef_current : option node)
    (e : event_effect) :
  typeof (ee_callback e) ≠ TFunction →
  event_effect_run elementRef_current e = ([], None).
Proof.
  intros Hf. unfold event_effect_run.
  destruct elementRef_current; [|done].
  by rewrite bool_decide_eq_false_2.
Qed.







Lemma event_effects_of_returns (o : Options)
    (elementRef_current : option node) (l : list (string * value)) :
  Forall (λ kv, startsWith "on" kv.1 = true) l →
  ∃ es, event_effects_of o elementRef_current l = Return es.
Proof.
  induction l as [|[k cb] l IH]; intros Hall; simpl.
  - by eexists.
  - apply Forall_cons in Hall as [Hk Hall].
    unfold event_effect_of. simpl in *.
    rewrite event_name_on_prefix by done. simpl.
    destruct (IH Hall) as [es ->]. simpl. by eexists.
Qed.

(** Once the loop has returned, the render returns: the event names of
    the props in [eventProps] always resolve. *)
Lemma render_returns (o : Options) (env : Env)
    (elementRef_current : option node) (props : list (string * value))
    (c : Classified) :
  NoDup props.*1 →
  classify o env props = Return c →
  ∃ r, render o env elementRef_current props = Return r.
Proof.
  intros Hnd Hc. unfold render. rewrite Hc. simpl.
  destruct (window_defined env); simpl; [|by eexists].
  destruct (event_effects_of_returns o elementRef_current
              (map_to_list (eventProps c))) as [es ->]; [|by eexists].
  apply Forall_forall. intros [k cb] Hin.
  apply elem_of_map_to_list in Hin. simpl.
  by apply (eventProps_on_prefix o env props c k Hnd Hc).
Qed.

(** ** Rendering off-browser *)


(** ** A name inherited from Object.prototype *)

(** C9 (the code at the failing input).  With the default policies, a prop
    named [valueOf] makes the loop raise, whatever its value:
    [reactPropToAttrNameMap["valueOf"]] is the function inherited from
    [Object.prototype], and [defaultToAttributeName] calls [toLowerCase] on
    it.  This holds for either React branch, in the browser and off it, and
    the render raises with the loop. *)
Theorem inherited_name_raises :
  classify (MyProfileOptions 18 true) browser [("valueOf", handler 9)]
  = Throw TypeError
  ∧ classify (MyProfileOptions 19 true) browser [("valueOf", handler 9)]
    = Throw TypeError
  ∧ classify (MyProfileOptions 19 false) server [("valueOf", handler 9)]
    = Throw TypeError
  ∧ render (MyProfileOptions 19 true) browser None
           (test_props ++ [("valueOf", handler 9)])
    = Throw TypeError.
Proof. split_and!; by vm_compute. Qed.

(** The other half of the claim holds: an event prop whose value is not a
    function is kept in [eventProps], and its effect subscribes to
    nothing and returns no cleanup, at the first commit and at later
    ones. *)
Lemma non_function_handler_ignored (elementRef_current : option node)
    (e : event_effect) (h : React.hook) :
  typeof (ee_callback e) ≠ TFunction →
  React.mount_hooks elementRef_current [e]
  = ([], [{| React.h_deps := ee_deps e; React.h_cleanup := None |}])
  ∧ ∃ kept,
      React.update_hooks elementRef_current [h] [e]
      = Some (if bool_decide (React.h_deps h = ee_deps e) then []
              else React.cleanup_ops h, [], kept).
Proof.
  intros Hf. simpl. unfold React.run_hook.
  rewrite event_effect_run_not_function by done. split; [done|].
  case_bool_decide; eexists; by rewrite ?app_nil_r.
Qed.

(** * The claims at concrete inputs *)

Example test_props_classified :
  classify (MyProfileOptions 18 true) browser test_props
  = Return test_classified.
Proof. by vm_compute. Qed.

Example test_props_classified_server :
  classify (MyProfileOptions 19 false) server test_props
  = Return test_classified_server.
Proof. by vm_compute. Qed.

Lemma test_props_NoDup : NoDup test_props.*1.
Proof. apply (bool_decide_unpack _). by vm_compute. Qed.

(** C1, as stated, fails: with React 18 the prop [hidden = false] falls
    through to the attribute rule, converts to undefined and is a key of
    none of the four objects. *)
Lemma classification_not_one_holder :
  ¬ (∀ (o : Options) (env : Env) (props : list (string * value))
       (c : Classified),
       NoDup props.*1 →
       classify o env props = Return c →
       ∀ k, k ∈ props.*1 → holders c k = 1).
Proof.
  intros H.
  specialize (H (MyProfileOptions 18 true) browser [("hidden", VBool false)]
                no_props).
  assert (holders no_props "hidden" = 1) as Hone; [|by vm_compute in Hone].
  apply H.
  - apply (bool_decide_unpack _). by vm_compute.
  - by vm_compute.
  - apply (bool_decide_unpack _). by vm_compute.
Qed.

(** With React 18 a prop that does become an attribute is a key of two
    objects, under its attribute name, and of none under its own. *)
Example attribute_in_two_objects :
  ∃ c, classify (MyProfileOptions 18 true) browser [("tabIndex", VNumber "0")]
       = Return c
       ∧ holders c "tabindex" = 2 ∧ holders c "tabIndex" = 0.
Proof. eexists. split; [by vm_compute|]. by vm_compute. Qed.

(** The witness of C1 (amended): the props of the test. *)
Lemma classification_by_rule_witness :
  NoDup test_props.*1
  ∧ classify (MyProfileOptions 18 true) browser test_props
    = Return test_classified
  ∧ elementProps test_classified !! "metadata" = Some metadata_object
  ∧ eventProps test_classified !! "metadata" = None
  ∧ eventProps test_classified !! "onFirstName" = Some (handler 1)
  ∧ is_Some (reactProps test_classified !! "style").
Proof.
  pose proof test_props_NoDup as Hnd.
  assert (classify (MyProfileOptions 18 true) browser test_props
          = Return test_classified) as Hc by (by vm_compute).
  destruct (classification_by_rule (MyProfileOptions 18 true) browser
              test_props test_classified Hnd Hc) as (Hroute & _ & _ & _).
  split_and!; [done|done| | | |].
  - destruct (Hroute "metadata" metadata_object) as (d & Hd & _ & He & _).
    { apply (bool_decide_unpack _). by vm_compute. }
    vm_compute in Hd. injection Hd as <-. exact He.
  - destruct (Hroute "metadata" metadata_object) as (d & Hd & _ & _ & Hv).
    { apply (bool_decide_unpack _). by vm_compute. }
    vm_compute in Hd. injection Hd as <-. exact Hv.
  - destruct (Hroute "onFirstName" (handler 1)) as (d & Hd & _ & _ & Hv).
    { apply (bool_decide_unpack _). by vm_compute. }
    vm_compute in Hd. injection Hd as <-. exact Hv.
  - destruct (Hroute "style" style_object) as (d & Hd & Hr & _).
    { apply (bool_decide_unpack _). by vm_compute. }
    vm_compute in Hd. injection Hd as <-. by apply Hr.
Defined.

(** C2, as stated, fails: an element class with a [htmlFor] accessor gets
    the prop [htmlFor] as an element property, although the renamed name,
    [for], is no property on its prototype. *)
Lemma element_property_not_on_renamed_name :
  ¬ (∀ (o : Options) (env : Env) (props : list (string * value))
       (c : Classified) (k : string) (v : value) (a : string),
       NoDup props.*1 →
       classify o env props = Return c →
       (k, v) ∈ props →
       attr_name o k = Return a →
       (elementProps c !! k = Some v
        ↔ spec_is_element_property o env k a = true)).
Proof.
  intros H.
  pose (c := {| eventProps := ∅; attrs := ∅; reactProps := ∅;
                elementProps := list_to_map [("htmlFor", VString "name")]
             |}).
  specialize (H LabelLikeOptions browser [("htmlFor", VString "name")] c
                "htmlFor" (VString "name") "for").
  assert (spec_is_element_property LabelLikeOptions browser "htmlFor" "for"
          = true) as Hspec; [|by vm_compute in Hspec].
  apply H.
  - apply (bool_decide_unpack _). by vm_compute.
  - by vm_compute.
  - apply list_elem_of_singleton. done.
  - by vm_compute.
  - by vm_compute.
Qed.

(** A prop whose attribute name is observed and whose name starts with
    "on" goes to the event rule, not to the attribute rule. *)
Example observed_on_prefix_is_event :
  let o :=
    {| react_version := Some 19%Z; tagName := "net-status";
       elementClass :=
         {| getTemplateHTML := None; shadowRootOptions_of := None;
            observedAttributes := Some ["online"];
            prototype := list_to_set ("online" :: HTMLElement_members);
            class_name := "NetStatus" |};
       events := None; displayName := None;
       attributeOptions := defaultAttributeOptions |} in
  observes (elementClass o) "online" = true
  ∧ destination_of o browser "online" = Return EventHandler.
Proof. by vm_compute. Qed.

(** The witness of C2 (amended): [metadata] and [firstName] in the props of
    the test. *)
Lemma element_property_iff_witness :
  elementProps test_classified !! "metadata" = Some metadata_object
  ∧ elementProps test_classified !! "firstName" = None
  ∧ destination_of (MyProfileOptions 18 true) browser "firstName"
    = Return ElementAttribute.
Proof.
  assert (classify (MyProfileOptions 18 true) browser test_props
          = Return test_classified) as Hc by (by vm_compute).
  pose proof (element_property_iff (MyProfileOptions 18 true) browser
                test_props test_classified test_props_NoDup Hc) as H.
  split.
  - destruct (H "metadata" metadata_object) as [Hiff _].
    { apply (bool_decide_unpack _). by vm_compute. }
    apply Hiff. split_and!.
    + intros Hr. apply (bool_decide_pack _) in Hr. by vm_compute in Hr.
    + apply (bool_decide_unpack _). by vm_compute.
    + by vm_compute.
    + by vm_compute.
  - destruct (H "firstName" (VString "Wesley")) as [_ Hobs].
    { apply (bool_decide_unpack _). by vm_compute. }
    apply Hobs.
    + intros Hr. apply (bool_decide_pack _) in Hr. by vm_compute in Hr.
    + by vm_compute.
Defined.


(** The witness of C4: [metadata] stays, [draft] and [id] were set by the
    previous render and are gone from this one. *)
Lemma property_sync_witness :
  property_effect browser (Some 7%positive)
    (list_to_map [("metadata", metadata_object)])
    (list_to_map [("metadata", VNull); ("draft", VString "a");
                  ("id", VString "b")])
  = ([ SetField 7%positive "metadata" metadata_object;
       SetField 7%positive "id" VUndefined;
       RemoveAttribute 7%positive "id";
       SetField 7%positive "draft" VUndefined ],
     list_to_map [("metadata", metadata_object)])
  ∧ (∀ op,
       op ∈ [ SetField 7%positive "metadata" metadata_object;
              SetField 7%positive "id" VUndefined;
              RemoveAttribute 7%positive "id";
              SetField 7%positive "draft" VUndefined ] →
       (∃ k v, op = SetField 7%positive k v)
       ∨ (∃ k, op = RemoveAttribute 7%positive k
               ∧ in_HTMLElement_prototype browser k = true)).
Proof.
  assert (property_effect browser (Some 7%positive)
            (list_to_map [("metadata", metadata_object)])
            (list_to_map [("metadata", VNull); ("draft", VString "a");
                          ("id", VString "b")])
          = ([ SetField 7%positive "metadata" metadata_object;
               SetField 7%positive "id" VUndefined;
               RemoveAttribute 7%positive "id";
               SetField 7%positive "draft" VUndefined ],
             list_to_map [("metadata", metadata_object)])) as Heff
    by (by vm_compute).
  split; [exact Heff|].
  destruct (property_sync browser 7%positive _ _ _ _ Heff)
    as (_ & _ & _ & _ & Hframe).
  intros op Hop. destruct (Hframe op Hop) as [(k & v & -> & _)|Hrem].
  - left. eauto.
  - destruct Hrem as (k & v & -> & _ & _ & Hb). right. eauto.
Defined.



(** The witness of C6: a handler, an object and a number. *)
Lemma default_attribute_value_conversion_witness :
  defaultToAttributeValue (handler 1) = VUndefined
  ∧ defaultToAttributeValue metadata_object = VUndefined
  ∧ defaultToAttributeValue (VNumber "38") = VNumber "38"
  ∧ (∃ c', classify_attribute (MyProfileOptions 18 true) "human"
             (VBool true) no_props = Return c'
           ∧ attrs c' !! "human" = Some "")
  ∧ (∃ c', classify_attribute (MyProfileOptions 18 true) "hidden"
             (VBool false) test_classified = Return c'
           ∧ attrs c' = attrs test_classified).
Proof.
  destruct default_attribute_value_conversion
    as (_ & _ & Hfun & Hobj & Hother & _ & Hnull & Htrue).
  split_and!.
  - by apply Hfun.
  - by apply Hobj.
  - by apply Hother.
  - by apply Htrue.
  - by apply Hnull.
Defined.



(** The witness of C10: the prop [_draft] under a naming policy that
    gives it no attribute name, with either React branch. *)
Lemma empty_attribute_name_drops_witness :
  classify_entry (PrivateOptions 18) browser test_classified
                 ("_draft", VString "x")
  = Return test_classified
  ∧ classify (PrivateOptions 19) browser
             ([("title", VString "t")] ++ ("_draft", VBool true) :: [])
    = classify (PrivateOptions 19) browser ([("title", VString "t")] ++ []).
Proof.
  split.
  - destruct (empty_attribute_name_drops (PrivateOptions 18) browser
                "_draft") with (v := VString "x") as [Hstep _];
      [by vm_compute..|].
    apply Hstep.
  - destruct (empty_attribute_name_drops (PrivateOptions 19) browser
                "_draft") with (v := VBool true) as [_ Hbag];
      [by vm_compute..|].
    apply (Hbag no_props).
Defined.

(** Mount, a re-render with another handler and without [metadata], and
    the unmount, as one trace. *)
Example mount_update_unmount :
  let o := MyProfileOptions 19 true in
  ∃ r1 i1 r2 i2,
    render o browser (elementRef new_instance)
           [("onFirstName", handler 1); ("metadata", metadata_object)]
    = Return r1
    ∧ commit browser new_instance 7%positive r1
      = Some ([ AddEventListener 7%positive "firstname" (handler 1) false;
                SetField 7%positive "metadata" metadata_object ], i1)
    ∧ render o browser (elementRef i1) [("onFirstName", handler 2)]
      = Return r2
    ∧ commit browser i1 7%positive r2
      = Some ([ RemoveEventListener 7%positive "firstname" (handler 1) false;
                AddEventListener 7%positive "firstname" (handler 2) false;
                SetField 7%positive "metadata" VUndefined ], i2)
    ∧ (unmount i2).1
      = [ RemoveEventListener 7%positive "firstname" (handler 2) false ].
Proof.
  intros o. eexists _, _, _, _.
  split; [by vm_compute|].
  split; [by vm_compute|].
  split; [by vm_compute|].
  split; by vm_compute.
Qed.

(** * Further properties of the component *)

(** ** Classification, batch by batch *)

Section Composition.

Context (o : Options) (env : Env).

Lemma obj_set_over_empty {A : Type} (k : string) (v : A) (m : gmap string A) :
  obj_set k v m = obj_set k v ∅ ∪ m.
Proof.
  unfold obj_set. case_bool_decide.
  - by rewrite (left_id ∅ _).
  - by rewrite insert_empty, insert_union_singleton_l.
Qed.

Lemma over_no_props_l (c : Classified) : over no_props c = c.
Proof. destruct c. unfold over. simpl. by rewrite !(left_id ∅ _). Qed.

Lemma over_no_props_r (c : Classified) : over c no_props = c.
Proof. destruct c. unfold over. simpl. by rewrite !(right_id ∅ _). Qed.

Lemma over_assoc (c3 c2 c1 : Classified) :
  over c3 (over c2 c1) = over (over c3 c2) c1.
Proof. unfold over. simpl. by rewrite !(assoc_L (∪)). Qed.

Lemma set_reactProps_over (k : string) (v : value) (c : Classified) :
  set_reactProps k v c = over (set_reactProps k v no_props) c.
Proof.
  destruct c. unfold set_reactProps, over. simpl.
  by rewrite !(left_id ∅ _), <- obj_set_over_empty.
Qed.

Lemma set_elementProps_over (k : string) (v : value) (c : Classified) :
  set_elementProps k v c = over (set_elementProps k v no_props) c.
Proof.
  destruct c. unfold set_elementProps, over. simpl.
  by rewrite !(left_id ∅ _), <- obj_set_over_empty.
Qed.

Lemma set_eventProps_over (k : string) (v : value) (c : Classified) :
  set_eventProps k v c = over (set_eventProps k v no_props) c.
Proof.
  destruct c. unfold set_eventProps, over. simpl.
  by rewrite !(left_id ∅ _), <- obj_set_over_empty.
Qed.

Lemma set_attrs_over (k s : string) (c : Classified) :
  set_attrs k s c = over (set_attrs k s no_props) c.
Proof.
  destruct c. unfold set_attrs, over. simpl.
  by rewrite !(left_id ∅ _), <- obj_set_over_empty.
Qed.

(** One turn of the loop writes over what is there; what it writes does
    not depend on what is there. *)
Lemma classify_entry_over (kv : string * value) (c : Classified) :
  classify_entry o env c kv =
  classify_entry o env no_props kv ≫= λ d, mret (over d c).
Proof.
  destruct kv as [k v]. unfold classify_entry.
  case_bool_decide; [simpl; by rewrite set_reactProps_over|].
  destruct (attr_name o k) as [a|e]; simpl; [|done].
  destruct (is_element_property o env k a);
    [simpl; by rewrite set_elementProps_over|].
  destruct (startsWith "on" k); [simpl; by rewrite set_eventProps_over|].
  unfold classify_attribute.
  destruct (truthy_string a); simpl.
  - destruct (nullish (toAttributeValue _ v)); simpl.
    + destruct (IS_REACT_19_OR_NEWER o); simpl.
      * by rewrite set_reactProps_over.
      * by rewrite over_no_props_l.
    + destruct (to_String (toAttributeValue _ v)) as [s|e]; simpl; [|done].
      destruct (IS_REACT_19_OR_NEWER o); simpl.
      * rewrite set_attrs_over, set_reactProps_over.
        rewrite (set_reactProps_over _ _ (set_attrs _ _ no_props)).
        by rewrite over_assoc.
      * rewrite set_attrs_over, set_reactProps_over.
        rewrite (set_reactProps_over _ _ (set_attrs _ _ no_props)).
        by rewrite over_assoc.
  - by rewrite over_no_props_l.
Qed.

Lemma classify_from_over (l : list (string * value)) (c : Classified) :
  classify_from o env c l =
  classify_from o env no_props l ≫= λ d, mret (over d c).
Proof.
  revert c. induction l as [|kv l IH]; intros c.
  - simpl. by rewrite over_no_props_l.
  - rewrite !classify_from_cons, classify_entry_over.
    destruct (classify_entry o env no_props kv) as [d|e]; simpl; [|done].
    rewrite (IH (over d c)), (IH d).
    destruct (classify_from o env no_props l) as [d'|e]; simpl; [|done].
    by rewrite over_assoc.
Qed.

(** X1.  Classification goes batch by batch: classifying the entries of
    [l1] followed by those of [l2] raises when either batch raises, and
    otherwise gives, object by object, what [l2] classifies to written
    over what [l1] classifies to.  So an entry can only replace what an
    earlier entry stored under the same key of the same object. *)
Theorem classify_app_over (l1 l2 : list (string * value)) :
  classify o env (l1 ++ l2) =
  classify o env l1 ≫= λ c1,
  classify o env l2 ≫= λ c2, mret (over c2 c1).
Proof.
  unfold classify. rewrite classify_from_app.
  destruct (classify_from o env no_props l1) as [c1|e]; simpl; [|done].
  apply classify_from_over.
Qed.

End Composition.

(** ** What is stored, and under which key *)

Section Storage.

Context (o : Options) (env : Env).

Lemma destination_Reserved (k : string) :
  destination_of o env k = Return Reserved → k ∈ reservedReactProps.
Proof.
  intros Hd. apply destination_of_Return in Hd as [_ Hd].
  destruct (decide (k ∈ reservedReactProps)) as [|Hr]; [done|].
  rewrite bool_decide_eq_false_2 in Hd by done.
  by destruct (is_element_property _ _ _ _), (startsWith "on" k).
Qed.

(** Entries that neither are the reserved name [a] nor resolve to the
    attribute name [a] leave [attrs[a]] and [reactProps[a]] as they are. *)
Lemma classify_from_untouched (l : list (string * value))
    (c c' : Classified) (a : string) :
  classify_from o env c l = Return c' →
  (∀ k v, (k, v) ∈ l →
     (k ∈ reservedReactProps → k ≠ a) ∧ attr_name o k ≠ Return a) →
  attrs c' !! a = attrs c !! a ∧ reactProps c' !! a = reactProps c !! a.
Proof.
  revert c. induction l as [|[k v] l IH]; intros c H Hl.
  - apply mret_Return in H as <-. done.
  - rewrite classify_from_cons in H.
    apply bind_Return in H as (c1 & H1 & H).
    destruct (IH c1 H) as [-> ->].
    { intros k' v' Hin. apply (Hl k' v'), elem_of_cons. by right. }
    destruct (Hl k v) as [Hres Hattr]; [apply elem_of_cons; by left|].
    apply classify_entry_inv in H1 as (d & Hd & H1).
    destruct d.
    + subst c1. simpl. split; [done|].
      apply obj_set_lookup_ne, Hres. by apply destination_Reserved.
    + by subst c1.
    + by subst c1.
    + destruct H1 as (a0 & Ha0 & H1).
      apply classify_attribute_frame in H1 as (_ & _ & Hat & Hr & _).
      assert (a ≠ a0) as Hne by (intros ->; by apply Hattr).
      by rewrite Hat, Hr.
Qed.

(** The turn of the loop on an attribute prop with a name and a value to
    store. *)
Lemma attribute_entry_step (k a : string) (v : value) (c c' : Classified) :
  classify_entry o env c (k, v) = Return c' →
  destination_of o env k = Return ElementAttribute →
  attr_name o k = Return a →
  truthy_string a = true → a ≠ "__proto__" →
  nullish (toAttributeValue (attributeOptions o) v) = false →
  ∃ s, to_String (toAttributeValue (attributeOptions o) v) = Return s
       ∧ attrs c' !! a = Some s
       ∧ reactProps c' !! a
         = Some (if IS_REACT_19_OR_NEWER o then v
                 else toAttributeValue (attributeOptions o) v).
Proof.
  intros H2 Hd Ha Ht Hp Hn.
  unfold classify_entry, destination_of in *.
  case_bool_decide; [done|]. rewrite Ha in *. simpl in *.
  destruct (is_element_property o env k a); [done|].
  destruct (startsWith "on" k); [done|].
  unfold classify_attribute in H2. rewrite Ht, Hn in H2. simpl in H2.
  destruct (to_String (toAttributeValue _ v)) as [s|e]; [|done].
  exists s. split; [done|]. simpl in H2.
  destruct (IS_REACT_19_OR_NEWER o); simpl in H2;
    apply mret_Return in H2 as <-; simpl;
    by rewrite !obj_set_lookup_eq.
Qed.

(** X2.  An attribute prop reaches the element under its attribute name.
    When a prop falls through to the attribute rule, its attribute name is
    not empty (nor [__proto__]), its converted value is neither null nor
    undefined, and no later entry of the bag is the reserved name of, or
    resolves to, the same attribute name, then [attrs] holds the converted
    value as a string under that name and [reactProps] holds the converted
    value (React 18 and older) or the original one (React 19 and newer),
    whatever earlier entries had stored there. *)
Theorem attribute_prop_stored (l1 l2 : list (string * value))
    (k a : string) (v : value) (c : Classified) :
  classify o env (l1 ++ (k, v) :: l2) = Return c →
  destination_of o env k = Return ElementAttribute →
  attr_name o k = Return a →
  truthy_string a = true → a ≠ "__proto__" →
  nullish (toAttributeValue (attributeOptions o) v) = false →
  (∀ k' v', (k', v') ∈ l2 →
     (k' ∈ reservedReactProps → k' ≠ a) ∧ attr_name o k' ≠ Return a) →
  ∃ s, to_String (toAttributeValue (attributeOptions o) v) = Return s
       ∧ attrs c !! a = Some s
       ∧ reactProps c !! a
         = Some (if IS_REACT_19_OR_NEWER o then v
                 else toAttributeValue (attributeOptions o) v).
Proof.
  intros H Hd Ha Ht Hp Hn Hl2. unfold classify in H.
  rewrite classify_from_app in H. apply bind_Return in H as (c1 & _ & H).
  rewrite classify_from_cons in H. apply bind_Return in H as (c2 & H2 & H).
  destruct (classify_from_untouched _ _ _ a H Hl2) as [-> ->].
  by apply (attribute_entry_step k a v c1 c2).
Qed.

(** X3.  A reserved prop reaches [reactProps] with its own value when no
    later entry of the bag resolves to an attribute name equal to the
    reserved name. *)
Theorem reserved_prop_verbatim (l1 l2 : list (string * value))
    (k : string) (v : value) (c : Classified) :
  NoDup (l1 ++ (k, v) :: l2).*1 →
  classify o env (l1 ++ (k, v) :: l2) = Return c →
  k ∈ reservedReactProps →
  (∀ k' v', (k', v') ∈ l2 → attr_name o k' ≠ Return k) →
  reactProps c !! k = Some v.
Proof.
  intros Hnd H Hr Hl2. unfold classify in H.
  rewrite classify_from_app in H. apply bind_Return in H as (c1 & _ & H).
  rewrite classify_from_cons in H. apply bind_Return in H as (c2 & H2 & H).
  destruct (classify_from_untouched _ _ _ k H) as [_ ->].
  - intros k' v' Hin. split; [|by eapply Hl2].
    intros _ ->. rewrite fmap_app, fmap_cons in Hnd.
    apply NoDup_app in Hnd as (_ & _ & Hnd).
    apply NoDup_cons in Hnd as [Hk _]. apply Hk.
    apply list_elem_of_fmap. by exists (k, v').
  - unfold classify_entry in H2.
    rewrite bool_decide_eq_true_2 in H2 by done.
    apply mret_Return in H2 as <-. simpl.
    apply obj_set_lookup_eq. by apply reserved_not_proto.
Qed.

Lemma classify_attribute_keys (a : string) (v : value) (c c' : Classified) :
  classify_attribute o a v c = Return c' →
  (∀ a', is_Some (attrs c !! a') → is_Some (reactProps c !! a')) →
  ∀ a', is_Some (attrs c' !! a') → is_Some (reactProps c' !! a').
Proof.
  unfold classify_attribute. intros H Hinv a'.
  destruct (truthy_string a); simpl in H.
  - destruct (nullish (toAttributeValue _ v)); simpl in H.
    + destruct (IS_REACT_19_OR_NEWER o); apply mret_Return in H as <-; simpl;
        [|by apply Hinv].
      intros Ha'. by apply obj_set_is_Some, Hinv.
    + destruct (to_String (toAttributeValue _ v)) as [s|e]; [|done].
      simpl in H.
      destruct (IS_REACT_19_OR_NEWER o); apply mret_Return in H as <-; simpl;
        rewrite !obj_set_lookup; case_bool_decide; eauto.
  - apply mret_Return in H as <-. by apply Hinv.
Qed.

Lemma classify_from_keys (l : list (string * value)) (c c' : Classified) :
  classify_from o env c l = Return c' →
  (∀ a, is_Some (attrs c !! a) → is_Some (reactProps c !! a)) →
  ∀ a, is_Some (attrs c' !! a) → is_Some (reactProps c' !! a).
Proof.
  revert c. induction l as [|[k v] l IH]; intros c H Hinv.
  - by apply mret_Return in H as <-.
  - rewrite classify_from_cons in H.
    apply bind_Return in H as (c1 & H1 & H).
    apply (IH c1 H). clear IH H.
    apply classify_entry_inv in H1 as (d & _ & H1).
    destruct d; try (subst c1; simpl; by auto).
    + subst c1. simpl. intros a Ha. by apply obj_set_is_Some, Hinv.
    + destruct H1 as (a0 & _ & H1). by eapply classify_attribute_keys.
Qed.

(** X4.  Every attribute name in [attrs], the object handed to
    [getTemplateHTML], is also a key of [reactProps], the props handed to
    [React.createElement]. *)
Theorem attrs_keys_in_reactProps (props : list (string * value))
    (c : Classified) (a : string) :
  classify o env props = Return c →
  is_Some (attrs c !! a) → is_Some (reactProps c !! a).
Proof.
  intros H. apply (classify_from_keys _ _ _ H).
  intros a'. simpl. rewrite lookup_empty. by intros [? ?].
Qed.

End Storage.

(** ** The React version *)

Section ReactVersion.

Context (o : Options) (env : Env) (version : option Z).

Lemma classify_entry_version (kv : string * value) (c1 c2 : Classified) :
  eventProps c1 = eventProps c2 → attrs c1 = attrs c2 →
  elementProps c1 = elementProps c2 →
  match classify_entry (with_react_version version o) env c1 kv,
        classify_entry o env c2 kv with
  | Return d1, Return d2 =>
      eventProps d1 = eventProps d2 ∧ attrs d1 = attrs d2
      ∧ elementProps d1 = elementProps d2
  | Throw e1, Throw e2 => e1 = e2
  | _, _ => False
  end.
Proof.
  intros Hv Ha He. destruct kv as [k v]. unfold classify_entry.
  case_bool_decide; [done|].
  change (attr_name (with_react_version version o) k) with (attr_name o k).
  destruct (attr_name o k) as [a|e]; simpl; [|done].
  change (is_element_property (with_react_version version o) env k a)
    with (is_element_property o env k a).
  destruct (is_element_property o env k a); simpl; [by rewrite He|].
  destruct (startsWith "on" k); simpl; [by rewrite Hv|].
  unfold classify_attribute. simpl.
  destruct (truthy_string a); simpl.
  - destruct (nullish (toAttributeValue _ v)); simpl.
    + by destruct (IS_REACT_19_OR_NEWER _), (IS_REACT_19_OR_NEWER _).
    + destruct (to_String (toAttributeValue _ v)) as [s|e]; simpl; [|done].
      destruct (IS_REACT_19_OR_NEWER _), (IS_REACT_19_OR_NEWER _); simpl;
        by rewrite Ha.
  - done.
Qed.

Lemma classify_from_version (l : list (string * value)) (c1 c2 : Classified) :
  eventProps c1 = eventProps c2 → attrs c1 = attrs c2 →
  elementProps c1 = elementProps c2 →
  match classify_from (with_react_version version o) env c1 l,
        classify_from o env c2 l with
  | Return d1, Return d2 =>
      eventProps d1 = eventProps d2 ∧ attrs d1 = attrs d2
      ∧ elementProps d1 = elementProps d2
  | Throw e1, Throw e2 => e1 = e2
  | _, _ => False
  end.
Proof.
  revert c1 c2. induction l as [|kv l IH]; intros c1 c2 Hv Ha He.
  - done.
  - rewrite !classify_from_cons.
    pose proof (classify_entry_version kv c1 c2 Hv Ha He) as Hkv.
    destruct (classify_entry (with_react_version version o) env c1 kv),
             (classify_entry o env c2 kv); simpl; try done.
    destruct Hkv as (? & ? & ?). by apply IH.
Qed.

(** X5.  The React version decides nothing but [reactProps]: with any other
    version the loop raises on the same bags, and gives the same [attrs],
    the same [elementProps] and the same [eventProps]. *)
Theorem react_version_changes_reactProps_only
    (props : list (string * value)) :
  attrs <$> classify (with_react_version version o) env props
  = attrs <$> classify o env props
  ∧ elementProps <$> classify (with_react_version version o) env props
    = elementProps <$> classify o env props
  ∧ eventProps <$> classify (with_react_version version o) env props
    = eventProps <$> classify o env props.
Proof.
  unfold classify.
  pose proof (classify_from_version props no_props no_props
                eq_refl eq_refl eq_refl) as H.
  destruct (classify_from (with_react_version version o) env no_props props),
           (classify_from o env no_props props); simpl; try done.
  - destruct H as (-> & -> & ->). done.
  - by subst.
Qed.

End ReactVersion.

(** ** Event names *)

Lemma substring_whole (s : string) : substring 0 (String.length s) s = s.
Proof. induction s as [|c s IH]; simpl; [done | by rewrite IH]. Qed.

Lemma append_length (x y : string) :
  String.length (x +:+ y) = (String.length x + String.length y)%nat.
Proof. induction x as [|c x IH]; simpl; [done | by rewrite IH]. Qed.

Lemma substring_append_r (x y : string) :
  substring (String.length x) (String.length y) (x +:+ y) = y.
Proof.
  induction x as [|c x IH]; simpl; [apply substring_whole | exact IH].
Qed.

Lemma substring_append_l (x y : string) :
  substring 0 (String.length x) (x +:+ y) = x.
Proof.
  induction x as [|c x IH]; simpl; [by destruct y | by rewrite IH].
Qed.

Lemma toLowerCase_append (x y : string) :
  toLowerCase (x +:+ y) = toLowerCase x +:+ toLowerCase y.
Proof. induction x as [|c x IH]; simpl; [done | by rewrite IH]. Qed.



Lemma endsWith_append (x p : string) : endsWith p (x +:+ p) = true.
Proof.
  unfold endsWith. rewrite append_length.
  rewrite (proj2 (Nat.leb_le _ _)) by lia.
  replace (String.length x + String.length p - String.length p)%nat
    with (String.length x) by lia.
  rewrite substring_append_r. apply String.eqb_refl.
Qed.

Lemma slice_drop_last_append (x y : string) :
  slice_drop_last (String.length y) (x +:+ y) = x.
Proof.
  unfold slice_drop_last. rewrite append_length.
  replace (String.length x + String.length y - String.length y)%nat
    with (String.length x) by lia.
  apply substring_append_l.
Qed.

Lemma slice_from_on (s : string) : slice_from 2 ("on" +:+ s) = s.
Proof. unfold slice_from. simpl. rewrite Nat.sub_0_r. apply substring_whole. Qed.

Lemma startsWith_on (s : string) : startsWith "on" ("on" +:+ s) = true.
Proof. unfold startsWith. simpl. by destruct s. Qed.

Lemma substring_0_0 (s : string) : substring 0 0 s = "".
Proof. by destruct s. Qed.

Lemma substring_0_length (m : nat) (s : string) :
  String.length (substring 0 m s) = Nat.min m (String.length s).
Proof.
  revert m. induction s as [|c s IH]; intros [|m]; simpl; try done.
  by rewrite IH.
Qed.

(** X6.  A capturing handler prop listens to the event of the plain one.
    When the event-name map has neither [on<Name>] nor [on<Name>Capture],
    both props resolve to the event [<name>], the name in lower case; the
    effect of the first is a bubbling listener and that of the second a
    capturing one. *)
Theorem capture_prop_same_event (o : Options) (name : string)
    (elementRef_current : option node) (callback : value) :
  events o ≫= (λ m, m !! ("on" +:+ name)) = None →
  events o ≫= (λ m, m !! ("on" +:+ name +:+ "Capture")) = None →
  endsWith "Capture" ("on" +:+ name) = false →
  event_effect_of o elementRef_current ("on" +:+ name, callback)
  = Return {| ee_eventName := toLowerCase name; ee_callback := callback;
              ee_useCapture := false;
              ee_deps := (elementRef_current, callback) |}
  ∧ event_effect_of o elementRef_current
      ("on" +:+ name +:+ "Capture", callback)
    = Return {| ee_eventName := toLowerCase name; ee_callback := callback;
                ee_useCapture := true;
                ee_deps := (elementRef_current, callback) |}.
Proof.
  intros Hplain Hcapture Hends.
  assert (endsWith "Capture" ("on" +:+ name +:+ "Capture") = true) as Hends'.
  { change ("on" +:+ name +:+ "Capture")
      with (("on" +:+ name) +:+ "Capture"). apply endsWith_append. }
  unfold event_effect_of. simpl fst. simpl snd.
  rewrite !event_name_on_prefix by apply startsWith_on.
  unfold spec_event_name.
  rewrite Hplain, Hcapture, Hends, Hends'. simpl. split; [|f_equal].
  - by rewrite (slice_from_on name).
  - pose proof (slice_from_on (name +:+ "Capture")) as Hs. simpl in Hs.
    rewrite Hs, toLowerCase_append. f_equal.
    apply (slice_drop_last_append (toLowerCase name) "capture").
Qed.

(** X7.  The entry of the event-name map for a capturing handler prop
    loses its last seven characters, whatever they are: the event name is
    the entry without them, and the empty string when the entry has seven
    characters or fewer. *)
Theorem configured_capture_name_cut (o : Options) (m : gmap string string)
    (k configured : string) :
  events o = Some m → m !! k = Some configured →
  startsWith "on" k = true → endsWith "Capture" k = true →
  ∃ eventName,
    event_name o k = Return eventName
    ∧ String.length eventName = (String.length configured - 7)%nat
    ∧ (∀ x y, configured = x +:+ y → String.length y = 7%nat →
              eventName = x)
    ∧ ((String.length configured ≤ 7)%nat → eventName = "").
Proof.
  intros Hev Hk Hon Hcap. rewrite event_name_on_prefix by done.
  unfold spec_event_name. rewrite Hev. simpl. rewrite Hk, Hcap.
  eexists. split; [done|]. split_and!.
  - unfold slice_drop_last. rewrite substring_0_length. lia.
  - intros x y -> Hy. rewrite <- Hy. apply slice_drop_last_append.
  - intros Hlen. unfold slice_drop_last.
    replace (String.length configured - 7)%nat with 0%nat by lia.
    apply substring_0_0.
Qed.

(** ** The event hooks from commit to commit *)

Lemma with_function_callback_cons (e : event_effect) (es : list event_effect) :
  with_function_callback (e :: es) =
  if bool_decide (typeof (ee_callback e) = TFunction)
  then e :: with_function_callback es else with_function_callback es.
Proof.
  unfold with_function_callback. rewrite filter_cons.
  case_bool_decide; by case_decide.
Qed.

Lemma run_hook_live (n : node) (e : event_effect) :
  React.run_hook (Some n) e =
  if bool_decide (typeof (ee_callback e) = TFunction)
  then ([subscribe n e],
        {| React.h_deps := ee_deps e;
           React.h_cleanup := Some (listener_of n e) |})
  else ([], {| React.h_deps := ee_deps e; React.h_cleanup := None |}).
Proof.
  unfold React.run_hook, event_effect_run. by case_bool_decide.
Qed.

(** X8.  At the first commit every event prop whose value is a function
    gets one [addEventListener] call on the live element, in the order of
    the hooks, and nothing is removed; the props with another value get
    none.  Without a live element nothing is subscribed. *)
Theorem mount_subscribes_function_handlers (n : node)
    (es : list event_effect) :
  (React.mount_hooks (Some n) es).1
  = subscribe n <$> with_function_callback es
  ∧ length (React.mount_hooks (Some n) es).2 = length es
  ∧ (React.mount_hooks None es).1 = [].
Proof.
  split_and!.
  - induction es as [|e es IH]; [done|].
    cbn [React.mount_hooks]. rewrite run_hook_live, with_function_callback_cons.
    destruct (React.mount_hooks (Some n) es) as [ops hs]. simpl in IH.
    case_bool_decide; simpl; by rewrite IH.
  - induction es as [|e es IH]; [done|].
    cbn [React.mount_hooks].
    destruct (React.run_hook (Some n) e) as [ops h].
    destruct (React.mount_hooks (Some n) es) as [ops' hs]. simpl in *.
    by rewrite IH.
  - induction es as [|e es IH]; [done|].
    cbn [React.mount_hooks]. unfold React.run_hook. simpl.
    destruct (React.mount_hooks None es) as [ops' hs]. simpl in *.
    by rewrite IH.
Qed.

Lemma event_effect_of_inv (o : Options) (elementRef_current : option node)
    (k : string) (callback : value) (e : event_effect) :
  event_effect_of o elementRef_current (k, callback) = Return e →
  ∃ eventName,
    event_name o k = Return eventName
    ∧ e = {| ee_eventName := eventName; ee_callback := callback;
             ee_useCapture := endsWith "Capture" k;
             ee_deps := (elementRef_current, callback) |}.
Proof.
  unfold event_effect_of. simpl. intros H.
  apply bind_Return in H as (eventName & Hn & H).
  apply mret_Return in H as <-. eauto.
Qed.


(** X9.  The first re-render after the mount removes and adds again the
    listener of every function-valued event prop, although no prop has
    changed: the dependency [elementRef.current] was null when the first
    render read it and is the element afterwards.  A further render of the
    same props touches no listener. *)
Theorem first_rerender_resubscribes (o : Options) (n : node)
    (l : list (string * value)) (es0 es1 : list event_effect) :
  event_effects_of o None l = Return es0 →
  event_effects_of o (Some n) l = Return es1 →
  ∃ hs1,
    React.update_hooks (Some n) (React.mount_hooks (Some n) es0).2 es1
    = Some (unsubscribe n <$> with_function_callback es1,
            subscribe n <$> with_function_callback es1,
            hs1)
    ∧ React.update_hooks (Some n) hs1 es1 = Some ([], [], hs1).
Proof.
  revert es0 es1. induction l as [|[k cb] l IH]; intros es0 es1 H0 H1.
  - simpl in H0, H1. apply mret_Return in H0 as <-.
    apply mret_Return in H1 as <-. by exists [].
  - simpl in H0, H1.
    apply bind_Return in H0 as (e0 & He0 & H0).
    apply bind_Return in H0 as (es0' & Hes0 & H0).
    apply mret_Return in H0 as <-.
    apply bind_Return in H1 as (e1 & He1 & H1).
    apply bind_Return in H1 as (es1' & Hes1 & H1).
    apply mret_Return in H1 as <-.
    destruct (IH es0' es1' Hes0 Hes1) as (hs1 & Hu1 & Hu2). clear IH.
    apply event_effect_of_inv in He0 as (name0 & Hn0 & ->).
    apply event_effect_of_inv in He1 as (name1 & Hn1 & ->).
    rewrite Hn0 in Hn1. injection Hn1 as <-.
    cbn [React.mount_hooks]. rewrite run_hook_live. simpl ee_callback.
    destruct (React.mount_hooks (Some n) es0') as [ops0 hs0] eqn:Hm.
    simpl in Hu1. rewrite with_function_callback_cons. simpl ee_callback.
    destruct (bool_decide (typeof cb = TFunction)) eqn:Hf.
    + eexists. split.
      * simpl. rewrite Hu1. simpl.
        rewrite ?bool_decide_eq_false_2 by (by intros [=]).
        rewrite run_hook_live. simpl ee_callback. rewrite Hf. done.
      * simpl. rewrite Hu2. simpl.
        by rewrite bool_decide_eq_true_2.
    + eexists. split.
      * simpl. rewrite Hu1. simpl.
        rewrite ?bool_decide_eq_false_2 by (by intros [=]).
        rewrite run_hook_live. simpl ee_callback. rewrite Hf. done.
      * simpl. rewrite Hu2. simpl.
        by rewrite bool_decide_eq_true_2.
Qed.

(** X10.  Two event props that resolve to one event with one handler share
    a single registration, so that changing one of them silences the
    other: when two hooks hold the same listener and only the first one's
    dependencies change, the commit removes that listener and adds the new
    one, and the second hook, which still records the listener as its own,
    is registered no more. *)
Theorem shared_registration_lost (n : node) (l : listener)
    (e' e : event_effect) (depsA : option node * value)
    (reg : list listener) :
  l = listener_of n e →
  listener_of n e' ≠ l →
  typeof (ee_callback e') = TFunction →
  depsA ≠ ee_deps e' →
  ∃ kept,
    React.update_hooks (Some n)
      [ {| React.h_deps := depsA; React.h_cleanup := Some l |};
        {| React.h_deps := ee_deps e; React.h_cleanup := Some l |} ]
      [ e'; e ]
    = Some ([event_cleanup l], [subscribe n e'], kept)
    ∧ kept !! 1%nat
      = Some {| React.h_deps := ee_deps e; React.h_cleanup := Some l |}
    ∧ (l ∉ registry_after reg ([event_cleanup l] ++ [subscribe n e']))
    ∧ listener_of n e' ∈ registry_after reg
                           ([event_cleanup l] ++ [subscribe n e']).
Proof.
  intros Hl Hne Hf Hdeps. simpl.
  rewrite (bool_decide_eq_true_2 (ee_deps e = ee_deps e)) by done.
  rewrite bool_decide_eq_false_2 by done.
  rewrite run_hook_live, bool_decide_eq_true_2 by done.
  eexists. split; [done|]. split; [done|].
  unfold registry_after. simpl.
  destruct l as [t ty cb cap]. simpl.
  set (l := {| l_target := t; l_type := ty; l_callback := cb;
               l_capture := cap |}) in *.
  fold (listener_of n e').
  assert (l ∉ filter (λ l', l' ≠ l) reg) as Hgone.
  { intros Hin. by apply list_elem_of_filter in Hin as [? _]. }
  case_bool_decide as Hin.
  - split; [done|]. exact Hin.
  - split.
    + intros Hl'. apply elem_of_app in Hl' as [?|Hl']; [done|].
      apply list_elem_of_singleton in Hl'. by apply Hne.
    + apply elem_of_app. right. by apply list_elem_of_singleton.
Qed.




(** ** The property effect from commit to commit *)

Lemma unset_all_elem (env : Env) (n : node) (prev : gmap string value)
    (op : dom_op) :
  op ∈ unset_all env n prev ↔
  ∃ k, is_Some (prev !! k) ∧ op ∈ setProperty env n k VUndefined.
Proof.
  unfold unset_all. rewrite flat_map_elem. split.
  - intros ([k w] & Hin & Hop). apply elem_of_map_to_list in Hin.
    exists k. eauto.
  - intros (k & [w Hw] & Hop). exists (k, w).
    split; [by apply elem_of_map_to_list | done].
Qed.


(** ** The attribute branch of setProperty *)

Lemma render_inv (o : Options) (env : Env) (elementRef_current : option node)
    (props : list (string * value)) (r : Rendered) :
  render o env elementRef_current props = Return r →
  ∃ c, classify o env props = Return c
       ∧ property_effect_of r
         = (if window_defined env then Some (elementProps c) else None).
Proof.
  unfold render. intros H. apply bind_Return in H as (c & Hc & H).
  apply bind_Return in H as (effects & _ & H).
  apply mret_Return in H as <-. eauto.
Qed.

Lemma run_hook_no_attribute (elementRef_current : option node)
    (e : event_effect) (n : node) (k : string) :
  RemoveAttribute n k ∉ (React.run_hook elementRef_current e).1.
Proof.
  unfold React.run_hook, event_effect_run.
  destruct elementRef_current as [t|]; simpl; [|by apply not_elem_of_nil].
  case_bool_decide; simpl; [|by apply not_elem_of_nil].
  intros Hin. by apply list_elem_of_singleton in Hin.
Qed.

Lemma cleanup_ops_no_attribute (h : React.hook) (n : node) (k : string) :
  RemoveAttribute n k ∉ React.cleanup_ops h.
Proof.
  unfold React.cleanup_ops. destruct (React.h_cleanup h) as [l|];
    [|by apply not_elem_of_nil].
  intros Hin. by apply list_elem_of_singleton in Hin.
Qed.

Lemma mount_hooks_no_attribute (elementRef_current : option node)
    (es : list event_effect) (n : node) (k : string) :
  RemoveAttribute n k ∉ (React.mount_hooks elementRef_current es).1.
Proof.
  induction es as [|e es IH]; simpl; [by apply not_elem_of_nil|].
  pose proof (run_hook_no_attribute elementRef_current e n k) as He.
  destruct (React.run_hook elementRef_current e) as [ops h].
  destruct (React.mount_hooks elementRef_current es) as [ops' hs].
  simpl in *. intros Hin. apply elem_of_app in Hin as [?|?]; auto.
Qed.

Lemma update_hooks_no_attribute (elementRef_current : option node)
    (hs : list React.hook) (es : list event_effect)
    (destroy create : list dom_op) (kept : list React.hook)
    (n : node) (k : string) :
  React.update_hooks elementRef_current hs es = Some (destroy, create, kept) →
  (RemoveAttribute n k ∉ destroy) ∧ (RemoveAttribute n k ∉ create).
Proof.
  revert es destroy create kept.
  induction hs as [|h hs IH]; intros [|e es] destroy create kept Hu;
    simpl in Hu; try done.
  - injection Hu as <- <- <-. split; by apply not_elem_of_nil.
  - destruct (React.update_hooks elementRef_current hs es)
      as [[[d c] kp]|] eqn:Hrest; simpl in Hu; [|done].
    destruct (IH es d c kp Hrest) as [Hd Hc].
    case_bool_decide.
    + by injection Hu as <- <- <-.
    + pose proof (run_hook_no_attribute elementRef_current e n k) as He.
      pose proof (cleanup_ops_no_attribute h n k) as Hh.
      destruct (React.run_hook elementRef_current e) as [ops h'].
      injection Hu as <- <- <-. simpl in He.
      split; intros Hin; apply elem_of_app in Hin as [?|?]; auto.
Qed.

Lemma reachable_prev_not_on_HTMLElement (o : Options) (env : Env) (n : node)
    (inst : Instance) :
  reachable o env n inst →
  ∀ k, is_Some (prevElemProps inst !! k) →
       in_HTMLElement_prototype env k = false.
Proof.
  induction 1 as [|inst props r ops inst' Hreach IH Hnd Hr Hcommit].
  - intros k. simpl. rewrite lookup_empty. by intros [? ?].
  - apply render_inv in Hr as (c & Hc & Hp).
    unfold commit in Hcommit. rewrite Hp in Hcommit.
    destruct (event_effects r) as [es|];
      [|by injection Hcommit as _ <-].
    destruct (window_defined env); [|by injection Hcommit as _ <-].
    destruct (match hooks inst with
              | Some hs => React.update_hooks (Some n) hs es
              | None =>
                  let '(ops, hs) := React.mount_hooks (Some n) es in
                  Some ([], ops, hs)
              end) as [[[destroy create] kept]|];
      cbn -[property_effect] in Hcommit; [|done].
    destruct (property_effect_live env n (elementProps c) (prevElemProps inst))
      as (q & _ & Heq).
    rewrite Heq in Hcommit. injection Hcommit as _ <-. simpl.
    intros k. by apply (elementProps_not_on_HTMLElement o env props c k).
Qed.

(** X14.  Over the life of a mounted instance the component never calls
    [removeAttribute]: the names that [setProperty] is given, to assign or
    to clear, are keys of some render's [elementProps], and none of those
    is a property on the prototype of [HTMLElement]. *)
Theorem removeAttribute_never_reached (o : Options) (env : Env) (n : node)
    (inst : Instance) (props : list (string * value)) (r : Rendered)
    (ops : list dom_op) (inst' : Instance) :
  reachable o env n inst →
  NoDup props.*1 →
  render o env (elementRef inst) props = Return r →
  commit env inst n r = Some (ops, inst') →
  ∀ n' k, RemoveAttribute n' k ∉ ops.
Proof.
  intros Hreach Hnd Hr Hcommit n' k.
  pose proof (reachable_prev_not_on_HTMLElement o env n inst Hreach) as Hprev.
  apply render_inv in Hr as (c & Hc & Hp).
  unfold commit in Hcommit. rewrite Hp in Hcommit.
  destruct (event_effects r) as [es|];
    [|injection Hcommit as <- _; by apply not_elem_of_nil].
  destruct (window_defined env);
    [|injection Hcommit as <- _; by apply not_elem_of_nil].
  assert (∀ destroy create kept,
    match hooks inst with
    | Some hs => React.update_hooks (Some n) hs es
    | None =>
        let '(ops, hs) := React.mount_hooks (Some n) es in
        Some ([], ops, hs)
    end = Some (destroy, create, kept) →
    (RemoveAttribute n' k ∉ destroy) ∧ (RemoveAttribute n' k ∉ create))
    as Hhooks.
  { intros destroy create kept Hh. destruct (hooks inst) as [hs|].
    - by eapply update_hooks_no_attribute.
    - pose proof (mount_hooks_no_attribute (Some n) es n' k) as Hm.
      destruct (React.mount_hooks (Some n) es) as [ops0 hs0].
      injection Hh as <- <- <-. split; [by apply not_elem_of_nil | done]. }
  destruct (match hooks inst with
            | Some hs => React.update_hooks (Some n) hs es
            | None =>
                let '(ops, hs) := React.mount_hooks (Some n) es in
                Some ([], ops, hs)
            end) as [[[destroy create] kept]|];
    cbn -[property_effect] in Hcommit; [|done].
  destruct (Hhooks destroy create kept eq_refl) as [Hd Hcr].
  destruct (property_effect_live env n (elementProps c) (prevElemProps inst))
    as (q & Hq & Heq).
  rewrite Heq in Hcommit. injection Hcommit as <- _.
  rewrite !elem_of_app, flat_map_elem, unset_all_elem.
  intros [?|[?|[([k' v'] & Hin & Hop)|(k' & [w Hw] & Hop)]]]; try done.
  - apply elem_of_map_to_list in Hin.
    assert (in_HTMLElement_prototype env k' = false) as Hf.
    { apply (elementProps_not_on_HTMLElement o env props c k' Hnd Hc).
      by exists v'. }
    apply setProperty_elem in Hop as [[=]|([= ? ?] & _ & Hb)].
    simpl in Hb. congruence.
  - assert (in_HTMLElement_prototype env k' = false) as Hf.
    { apply Hprev. rewrite Hq in Hw.
      destruct (elementProps c !! k'); [done|]. by exists w. }
    apply setProperty_elem in Hop as [[=]|([= ? ?] & _ & Hb)]. congruence.
Qed.

(** ** The listeners an instance holds *)

Lemma run_hook_listener (n : node) (e : event_effect) (l : listener) :
  React.h_cleanup (React.run_hook (Some n) e).2 = Some l →
  l_target l = n ∧ typeof (l_callback l) = TFunction.
Proof.
  rewrite run_hook_live. case_bool_decide; simpl; [|done].
  by intros [= <-].
Qed.

Lemma mount_hooks_listener (n : node) (es : list event_effect)
    (h : React.hook) (l : listener) :
  h ∈ (React.mount_hooks (Some n) es).2 → React.h_cleanup h = Some l →
  l_target l = n ∧ typeof (l_callback l) = TFunction.
Proof.
  induction es as [|e es IH]; simpl; [by intros ?%elem_of_nil|].
  pose proof (run_hook_listener n e l) as He.
  destruct (React.run_hook (Some n) e) as [ops h0].
  destruct (React.mount_hooks (Some n) es) as [ops' hs]. simpl in *.
  intros Hin Hl. apply elem_of_cons in Hin as [->|Hin]; auto.
Qed.

Lemma update_hooks_listener (n : node) (hs : list React.hook)
    (es : list event_effect) (destroy create : list dom_op)
    (kept : list React.hook) :
  React.update_hooks (Some n) hs es = Some (destroy, create, kept) →
  (∀ h l, h ∈ hs → React.h_cleanup h = Some l →
          l_target l = n ∧ typeof (l_callback l) = TFunction) →
  ∀ h l, h ∈ kept → React.h_cleanup h = Some l →
         l_target l = n ∧ typeof (l_callback l) = TFunction.
Proof.
  revert es destroy create kept.
  induction hs as [|h0 hs IH]; intros [|e es] destroy create kept Hu Hold;
    simpl in Hu; try done.
  - injection Hu as <- <- <-. by intros h l ?%elem_of_nil.
  - destruct (React.update_hooks (Some n) hs es)
      as [[[d c] kp]|] eqn:Hrest; simpl in Hu; [|done].
    assert (∀ h l, h ∈ kp → React.h_cleanup h = Some l →
                   l_target l = n ∧ typeof (l_callback l) = TFunction)
      as Hkp.
    { apply (IH es d c kp Hrest). intros h l Hin.
      apply Hold, elem_of_cons. by right. }
    case_bool_decide.
    + injection Hu as <- <- <-. intros h l Hin Hl.
      apply elem_of_cons in Hin as [->|Hin]; [|by eapply Hkp].
      apply (Hold h0 l); [apply elem_of_cons; by left | done].
    + pose proof (run_hook_listener n e) as He.
      destruct (React.run_hook (Some n) e) as [ops h'].
      injection Hu as <- <- <-. intros h l Hin Hl.
      apply elem_of_cons in Hin as [->|Hin]; [by apply He | by eapply Hkp].
Qed.

(** X15.  Every listener a mounted instance holds is a function registered
    on the instance's own element: whatever the renders, no hook keeps a
    listener on another node or with a callback that is not a function, so
    that the unmount removes listeners from that element only. *)
Theorem listeners_on_own_element (o : Options) (env : Env) (n : node)
    (inst : Instance) (hs : list React.hook) :
  reachable o env n inst →
  hooks inst = Some hs →
  (∀ h l, h ∈ hs → React.h_cleanup h = Some l →
          l_target l = n ∧ typeof (l_callback l) = TFunction)
  ∧ (∀ op, op ∈ (unmount inst).1 →
           ∃ type callback capture,
             op = RemoveEventListener n type callback capture
             ∧ typeof callback = TFunction).
Proof.
  intros Hreach.
  assert (∀ hs, hooks inst = Some hs →
    ∀ h l, h ∈ hs → React.h_cleanup h = Some l →
           l_target l = n ∧ typeof (l_callback l) = TFunction) as Hinv.
  { clear hs.
    induction Hreach as [|inst props r ops inst' Hreach IH Hnd Hr Hcommit];
      [done|].
    intros hs Hhs. unfold commit in Hcommit.
    destruct (event_effects r) as [es|];
      [|injection Hcommit as _ <-; by apply IH].
    destruct (property_effect_of r) as [m|];
      [|injection Hcommit as _ <-; by apply IH].
    destruct (hooks inst) as [hs0|] eqn:Hh0.
    - destruct (React.update_hooks (Some n) hs0 es)
        as [[[destroy create] kept]|] eqn:Hu;
        cbn -[property_effect] in Hcommit; [|done].
      destruct (property_effect env (Some n) m (prevElemProps inst)).
      injection Hcommit as _ <-. simpl in Hhs. injection Hhs as <-.
      apply (update_hooks_listener n hs0 es destroy create kept Hu).
      by apply IH.
    - pose proof (mount_hooks_listener n es) as Hm.
      destruct (React.mount_hooks (Some n) es) as [ops0 hs1].
      cbn -[property_effect] in Hcommit.
      destruct (property_effect env (Some n) m (prevElemProps inst)).
      injection Hcommit as _ <-. simpl in Hhs. injection Hhs as <-.
      exact Hm. }
  intros Hhs. split; [by apply Hinv|].
  unfold unmount. rewrite Hhs. simpl. intros op Hop.
  apply flat_map_elem in Hop as (h & Hh & Hop).
  unfold React.cleanup_ops in Hop.
  destruct (React.h_cleanup h) as [l|] eqn:Hl; [|by apply elem_of_nil in Hop].
  apply list_elem_of_singleton in Hop as ->.
  destruct (Hinv hs Hhs h l Hh Hl) as [<- Hf].
  unfold event_cleanup. eauto.
Qed.

(** ** The default naming *)



(** ** The element of the test suite, rendered off-browser *)


(** * The further properties at concrete inputs *)

(** The witness of X2: [className] after [class]. *)
Lemma attribute_prop_stored_witness :
  ∃ c, classify (MyProfileOptions 18 true) browser
         ([("class", VString "a")] ++ ("className", VString "b") :: [])
       = Return c
       ∧ attrs c !! "class" = Some "b"
       ∧ reactProps c !! "class" = Some (VString "b").
Proof.
  eexists. split; [by vm_compute|].
  edestruct (attribute_prop_stored (MyProfileOptions 18 true) browser
               [("class", VString "a")] [] "className" "class" (VString "b"))
    as (s & Hs & Ha & Hr).
  - by vm_compute.
  - by vm_compute.
  - by vm_compute.
  - reflexivity.
  - done.
  - reflexivity.
  - intros k' v' Hin. by apply elem_of_nil in Hin.
  - injection Hs as <-. split; [exact Ha | exact Hr].
Defined.

(** The witness of X3: [style] in the props of the test. *)
Lemma reserved_prop_verbatim_witness :
  reactProps test_classified !! "style" = Some style_object.
Proof.
  apply (reserved_prop_verbatim (MyProfileOptions 18 true) browser
           [ ("suppressHydrationWarning", VBool true);
             ("metadata", metadata_object);
             ("onFirstName", handler 1);
             ("firstName", VString "Wesley");
             ("age", VNumber "38");
             ("human", VBool true);
             ("className", VString "my-class") ]
           [ ("tabIndex", VNumber "0"); ("children", children_element) ]
           "style" style_object test_classified).
  - apply (bool_decide_unpack _). by vm_compute.
  - by vm_compute.
  - apply (bool_decide_unpack _). by vm_compute.
  - intros k' v' Hin.
    apply elem_of_cons in Hin as [[= -> _]|Hin]; [by vm_compute|].
    apply list_elem_of_singleton in Hin as [= -> _]. by vm_compute.
Defined.

(** The witness of X4: [human] in the props of the test. *)
Lemma attrs_keys_in_reactProps_witness :
  is_Some (reactProps test_classified !! "human").
Proof.
  apply (attrs_keys_in_reactProps (MyProfileOptions 18 true) browser
           test_props test_classified "human").
  - by vm_compute.
  - exists "". by vm_compute.
Defined.

(** The witness of X6: [onClick] and [onClickCapture]. *)
Lemma capture_prop_same_event_witness :
  event_effect_of (MyProfileOptions 18 true) None ("onClick", handler 1)
  = Return {| ee_eventName := "click"; ee_callback := handler 1;
              ee_useCapture := false; ee_deps := (None, handler 1) |}
  ∧ event_effect_of (MyProfileOptions 18 true) None
      ("onClickCapture", handler 1)
    = Return {| ee_eventName := "click"; ee_callback := handler 1;
                ee_useCapture := true; ee_deps := (None, handler 1) |}.
Proof.
  apply (capture_prop_same_event (MyProfileOptions 18 true) "Click" None
           (handler 1)); by vm_compute.
Defined.

(** The witness of X7: the map [{onFooCapture: "foo"}]. *)
Lemma configured_capture_name_cut_witness :
  event_name
    {| react_version := Some 19%Z; tagName := "my-profile";
       elementClass := MyProfile true;
       events := Some (<["onFooCapture" := "foo"]> ∅);
       displayName := None; attributeOptions := defaultAttributeOptions |}
    "onFooCapture"
  = Return "".
Proof.
  edestruct (configured_capture_name_cut
               {| react_version := Some 19%Z; tagName := "my-profile";
                  elementClass := MyProfile true;
                  events := Some (<["onFooCapture" := "foo"]> ∅);
                  displayName := None;
                  attributeOptions := defaultAttributeOptions |}
               (<["onFooCapture" := "foo"]> ∅) "onFooCapture" "foo")
    as (eventName & Hname & _ & _ & Hshort);
    [reflexivity | by vm_compute | by vm_compute | by vm_compute |].
  rewrite Hname. f_equal. apply Hshort. simpl. lia.
Defined.

(** The witness of X9: the event prop of the test. *)
Lemma first_rerender_resubscribes_witness :
  ∃ hs1,
    React.update_hooks (Some 7%positive)
      (React.mount_hooks (Some 7%positive)
         [ {| ee_eventName := "firstname"; ee_callback := handler 1;
              ee_useCapture := false; ee_deps := (None, handler 1) |} ]).2
      [ {| ee_eventName := "firstname"; ee_callback := handler 1;
           ee_useCapture := false;
           ee_deps := (Some 7%positive, handler 1) |} ]
    = Some ([RemoveEventListener 7%positive "firstname" (handler 1) false],
            [AddEventListener 7%positive "firstname" (handler 1) false],
            hs1)
    ∧ React.update_hooks (Some 7%positive) hs1
        [ {| ee_eventName := "firstname"; ee_callback := handler 1;
             ee_useCapture := false;
             ee_deps := (Some 7%positive, handler 1) |} ]
      = Some ([], [], hs1).
Proof.
  apply (first_rerender_resubscribes (MyProfileOptions 18 true) 7%positive
           [("onFirstName", handler 1)]); by vm_compute.
Defined.

(** The witness of X10: [onFoo] and [onfoo] with one handler, the first of
    them re-rendered with another handler. *)
Lemma shared_registration_lost_witness :
  let l := {| l_target := 7%positive; l_type := "foo";
              l_callback := handler 1; l_capture := false |} in
  let e := {| ee_eventName := "foo"; ee_callback := handler 1;
              ee_useCapture := false;
              ee_deps := (Some 7%positive, handler 1) |} in
  let e' := {| ee_eventName := "foo"; ee_callback := handler 2;
               ee_useCapture := false;
               ee_deps := (Some 7%positive, handler 2) |} in
  event_effects_of (MyProfileOptions 18 true) (Some 7%positive)
    [("onFoo", handler 2); ("onfoo", handler 1)] = Return [e'; e]
  ∧ ∃ kept,
      React.update_hooks (Some 7%positive)
        [ {| React.h_deps := (Some 7%positive, handler 1);
             React.h_cleanup := Some l |};
          {| React.h_deps := (Some 7%positive, handler 1);
             React.h_cleanup := Some l |} ]
        [ e'; e ]
      = Some ([event_cleanup l], [subscribe 7%positive e'], kept)
      ∧ kept !! 1%nat
        = Some {| React.h_deps := (Some 7%positive, handler 1);
                  React.h_cleanup := Some l |}
      ∧ (l ∉ registry_after [l]
               ([event_cleanup l] ++ [subscribe 7%positive e'])).
Proof.
  intros l e e'. split; [by vm_compute|].
  destruct (shared_registration_lost 7%positive l e' e
              (Some 7%positive, handler 1) [l])
    as (kept & Hu & Hk & Hgone & _); try by vm_compute.
  exists kept. by split_and!.
Defined.




(** The witness of X14: the first commit of an instance with an event prop
    and a property prop. *)
Lemma removeAttribute_never_reached_witness :
  ∃ r ops inst',
    render (MyProfileOptions 19 true) browser (elementRef new_instance)
           [("onFirstName", handler 1); ("metadata", metadata_object)]
    = Return r
    ∧ commit browser new_instance 7%positive r = Some (ops, inst')
    ∧ ∀ n' k, RemoveAttribute n' k ∉ ops.
Proof.
  eexists _, _, _. split; [by vm_compute|]. split; [by vm_compute|].
  eapply (removeAttribute_never_reached (MyProfileOptions 19 true) browser
            7%positive new_instance
            [("onFirstName", handler 1); ("metadata", metadata_object)]).
  - constructor.
  - apply (bool_decide_unpack _). by vm_compute.
  - by vm_compute.
  - by vm_compute.
Defined.

(** The witness of X15: the instance after that first commit. *)
Lemma listeners_on_own_element_witness :
  let inst :=
    {| elementRef := Some 7%positive;
       prevElemProps := list_to_map [("metadata", metadata_object)];
       hooks :=
         Some [ {| React.h_deps := (None, handler 1);
                   React.h_cleanup :=
                     Some {| l_target := 7%positive; l_type := "firstname";
                             l_callback := handler 1;
                             l_capture := false |} |} ] |} in
  reachable (MyProfileOptions 19 true) browser 7%positive inst
  ∧ (unmount inst).1
    = [RemoveEventListener 7%positive "firstname" (handler 1) false]
  ∧ ∀ op, op ∈ (unmount inst).1 →
      ∃ type callback capture,
        op = RemoveEventListener 7%positive type callback capture
        ∧ typeof callback = TFunction.
Proof.
  intros inst.
  assert (reachable (MyProfileOptions 19 true) browser 7%positive inst)
    as Hreach.
  { eapply (reachable_commit _ _ _ new_instance
              [("onFirstName", handler 1); ("metadata", metadata_object)]).
    - constructor.
    - apply (bool_decide_unpack _). by vm_compute.
    - by vm_compute.
    - by vm_compute. }
  split; [exact Hreach|]. split; [by vm_compute|].
  eapply (listeners_on_own_element _ _ _ _ _ Hreach). reflexivity.
Defined.



(** The witness of X18: a prop named [toString]. *)
Lemma default_classification_raises_iff_witness :
  ∃ e, classify (MyProfileOptions 19 true) browser
         (test_props ++ [("toString", handler 9)]) = Throw e.
Proof.
  apply (default_classification_raises_iff (MyProfileOptions 19 true) browser
           (test_props ++ [("toString", handler 9)]) eq_refl).
  exists "toString". split; apply (bool_decide_unpack _); by vm_compute.
Defined.
